(** * PPG streaming firmware: ring buffer, packetizer and session state machine

    Shallow embedding of [Embedded System/main.cpp] (Arduino firmware that
    streams MAX30102 IR/Red samples over BLE) and the properties of its
    acquisition / buffering / transmission pipeline.

    C++ [int] and [uint32_t] values are integers in [Z]; the wrap-around of
    the 8-bit sequence counter and of the 32-bit [unsigned long] counters is
    written out.  Fixed-size C arrays are lists accessed through [aget] and
    [aset].  Functions that touch the global state or the peripherals live
    in the monad [M], which threads the globals and logs the calls made to
    the collaborators (serial port, sensor driver, BLE stack). *)

From Stdlib Require Import ZArith Lia Ascii.
From stdpp Require Import base tactics option list strings.

Local Open Scope Z_scope.

(** [lia] also handles division and remainder by constants. *)
Ltac Zify.zify_post_hook ::= Z.to_euclidean_division_equations.

(** ** Build-time constants *)

Definition SAMPLE_RATE : Z := 200.
Definition BUFFER_HEADROOM_SECONDS : Z := 5.
Definition PACKET_PACING_MS : Z := 3.
Definition BATCH_SIZE : Z := 16.

Definition BUFFER_SIZE : Z := SAMPLE_RATE * BUFFER_HEADROOM_SECONDS.
(** [(int)(SAMPLE_RATE * CHUNK_SECONDS + 0.5f)] with [CHUNK_SECONDS = 0.20f]:
    the single-precision product is 40.0, so the truncated value is 40. *)
Definition RAW_CHUNK_SIZE : Z := 40.
Definition CHUNK_SIZE : Z := (RAW_CHUNK_SIZE ÷ BATCH_SIZE) * BATCH_SIZE.
Definition PACKET_SIZE : Z := 1 + BATCH_SIZE * 8.

Definition DEBUG_NONE : Z := 0.
Definition DEBUG_INFO : Z := 1.
Definition DEBUG_VERBOSE : Z := 2.
(** The value the firmware is built with; the functions below take the
    level as a parameter so that statements can range over every build. *)
Definition DEBUG_LEVEL : Z := DEBUG_NONE.

(** ** Machine integers and arrays *)

(** [uint8_t] arithmetic. *)
Definition wrap8 (x : Z) : Z := x mod 256.
(** [unsigned long] arithmetic (32 bits on the target). *)
Definition wrap32 (x : Z) : Z := x mod 2 ^ 32.

(** [a[i]] and [a[i] = v] on a fixed-size array.  An index outside the
    array is undefined behaviour in C++; here a read yields 0 and a write
    does nothing, and the invariants below show the indices stay inside. *)
Definition aget (a : list Z) (i : Z) : Z := default 0 (a !! Z.to_nat i).
Definition aset (a : list Z) (i : Z) (v : Z) : list Z := <[Z.to_nat i := v]> a.

(** ** Global state *)

Record State : Type := mkState {
  seqNumber : Z;                    (* uint8_t *)
  irRingBuffer : list Z;            (* uint32_t [BUFFER_SIZE] *)
  redRingBuffer : list Z;           (* uint32_t [BUFFER_SIZE] *)
  writeIndex : Z;                   (* int *)
  readIndex : Z;                    (* int *)
  bufferCount : Z;                  (* int *)
  irChunk : list Z;                 (* uint32_t [CHUNK_SIZE] *)
  redChunk : list Z;                (* uint32_t [CHUNK_SIZE] *)
  streamingStartTime : Z;           (* unsigned long *)
  totalSamplesDuringStream : Z;     (* unsigned long *)
  streaming : bool;
  sensorConfigured : bool
}.

Definition set_seqNumber (v : Z) (s : State) : State :=
  mkState v (irRingBuffer s) (redRingBuffer s) (writeIndex s) (readIndex s)
    (bufferCount s) (irChunk s) (redChunk s) (streamingStartTime s)
    (totalSamplesDuringStream s) (streaming s) (sensorConfigured s).
Definition set_irRingBuffer (v : list Z) (s : State) : State :=
  mkState (seqNumber s) v (redRingBuffer s) (writeIndex s) (readIndex s)
    (bufferCount s) (irChunk s) (redChunk s) (streamingStartTime s)
    (totalSamplesDuringStream s) (streaming s) (sensorConfigured s).
Definition set_redRingBuffer (v : list Z) (s : State) : State :=
  mkState (seqNumber s) (irRingBuffer s) v (writeIndex s) (readIndex s)
    (bufferCount s) (irChunk s) (redChunk s) (streamingStartTime s)
    (totalSamplesDuringStream s) (streaming s) (sensorConfigured s).
Definition set_writeIndex (v : Z) (s : State) : State :=
  mkState (seqNumber s) (irRingBuffer s) (redRingBuffer s) v (readIndex s)
    (bufferCount s) (irChunk s) (redChunk s) (streamingStartTime s)
    (totalSamplesDuringStream s) (streaming s) (sensorConfigured s).
Definition set_readIndex (v : Z) (s : State) : State :=
  mkState (seqNumber s) (irRingBuffer s) (redRingBuffer s) (writeIndex s) v
    (bufferCount s) (irChunk s) (redChunk s) (streamingStartTime s)
    (totalSamplesDuringStream s) (streaming s) (sensorConfigured s).
Definition set_bufferCount (v : Z) (s : State) : State :=
  mkState (seqNumber s) (irRingBuffer s) (redRingBuffer s) (writeIndex s)
    (readIndex s) v (irChunk s) (redChunk s) (streamingStartTime s)
    (totalSamplesDuringStream s) (streaming s) (sensorConfigured s).
Definition set_irChunk (v : list Z) (s : State) : State :=
  mkState (seqNumber s) (irRingBuffer s) (redRingBuffer s) (writeIndex s)
    (readIndex s) (bufferCount s) v (redChunk s) (streamingStartTime s)
    (totalSamplesDuringStream s) (streaming s) (sensorConfigured s).
Definition set_redChunk (v : list Z) (s : State) : State :=
  mkState (seqNumber s) (irRingBuffer s) (redRingBuffer s) (writeIndex s)
    (readIndex s) (bufferCount s) (irChunk s) v (streamingStartTime s)
    (totalSamplesDuringStream s) (streaming s) (sensorConfigured s).
Definition set_streamingStartTime (v : Z) (s : State) : State :=
  mkState (seqNumber s) (irRingBuffer s) (redRingBuffer s) (writeIndex s)
    (readIndex s) (bufferCount s) (irChunk s) (redChunk s) v
    (totalSamplesDuringStream s) (streaming s) (sensorConfigured s).
Definition set_totalSamplesDuringStream (v : Z) (s : State) : State :=
  mkState (seqNumber s) (irRingBuffer s) (redRingBuffer s) (writeIndex s)
    (readIndex s) (bufferCount s) (irChunk s) (redChunk s)
    (streamingStartTime s) v (streaming s) (sensorConfigured s).
Definition set_streaming (v : bool) (s : State) : State :=
  mkState (seqNumber s) (irRingBuffer s) (redRingBuffer s) (writeIndex s)
    (readIndex s) (bufferCount s) (irChunk s) (redChunk s)
    (streamingStartTime s) (totalSamplesDuringStream s) v (sensorConfigured s).
Definition set_sensorConfigured (v : bool) (s : State) : State :=
  mkState (seqNumber s) (irRingBuffer s) (redRingBuffer s) (writeIndex s)
    (readIndex s) (bufferCount s) (irChunk s) (redChunk s)
    (streamingStartTime s) (totalSamplesDuringStream s) (streaming s) v.

(** The globals as the C++ runtime zero-initialises them. *)
Definition boot : State :=
  mkState 0 (replicate (Z.to_nat BUFFER_SIZE) 0) (replicate (Z.to_nat BUFFER_SIZE) 0)
    0 0 0 (replicate (Z.to_nat CHUNK_SIZE) 0) (replicate (Z.to_nat CHUNK_SIZE) 0)
    0 0 false false.

(** ** Calls to the collaborators *)

Inductive Event : Type :=
  | EvDebug (msg : string)                  (* line of debugPrint, without its time stamp *)
  | EvSummary (elapsed_ms captured chunks : Z)  (* printStreamingSummary *)
  | EvChunkSent (n : Z)                     (* "Chunk sent, seq = n" *)
  | EvSensorSetup                           (* particleSensor.setup(...) *)
  | EvSensorClearFIFO                       (* particleSensor.clearFIFO() *)
  | EvSensorShutDown                        (* particleSensor.shutDown() *)
  | EvNotify (packet : list Z)              (* dataChar.writeValue(packet, PACKET_SIZE) *)
  | EvDelay (ms : Z)                        (* delay(ms) *)
  | EvBlePoll                               (* BLE.poll() *)
  | EvAdvertise.                            (* BLE.advertise() *)

(** ** The monad of the firmware's procedures *)

Definition M (A : Type) : Type := State → A * State * list Event.

Definition ret {A} (a : A) : M A := λ s, (a, s, []).
Definition bind {A B} (m : M A) (k : A → M B) : M B :=
  λ s, let r1 := m s in
       let r2 := k r1.1.1 r1.1.2 in
       (r2.1.1, r2.1.2, r1.2 ++ r2.2).
Definition get {A} (f : State → A) : M A := λ s, (f s, s, []).
Definition modify (f : State → State) : M unit := λ s, (tt, f s, []).
Definition emit (e : Event) : M unit := λ s, (tt, s, [e]).

#[global] Instance M_ret : MRet M := @ret.
#[global] Instance M_bind : MBind M := λ A B k m, bind m k.

Definition result {A} (r : A * State * list Event) : A := r.1.1.
Definition state_of {A} (r : A * State * list Event) : State := r.1.2.
Definition events {A} (r : A * State * list Event) : list Event := r.2.

(** [for (int i = 0; i < n; i++) body(i)] runs [body] on [seqZ 0 n]. *)
Fixpoint forM (l : list Z) (body : Z → M unit) : M unit :=
  match l with
  | [] => ret tt
  | i :: l' => body i;; forM l' body
  end.

(** ** The firmware's procedures *)

Section Firmware.

(** The diagnostic verbosity the firmware is built with ([DEBUG_LEVEL]). *)
Variable debug_level : Z.

(** [debugPrint]: the line is printed only when [level <= DEBUG_LEVEL]. *)
Definition debugPrint (level : Z) (msg : string) : M unit :=
  if level <=? debug_level then emit (EvDebug msg) else mret tt.

(** [printStreamingSummary], called at time [now = millis()].  Duration,
    expected count, miss count and miss rate on the printed lines are
    single-precision functions of the elapsed milliseconds and of the
    captured count; the event records those two inputs and the chunk
    figure. *)
Definition printStreamingSummary (now : Z) : M unit :=
  total ← get totalSamplesDuringStream;
  if total =? 0 then mret tt
  else
    start ← get streamingStartTime;
    seq ← get seqNumber;
    emit (EvSummary (wrap32 (now - start)) total seq).

Definition configureSensor : M unit :=
  emit EvSensorSetup;;
  emit EvSensorClearFIFO;;
  modify (set_sensorConfigured true);;
  debugPrint DEBUG_INFO "Sensor configured for 200 Hz streaming".

Definition shutdownSensor : M unit :=
  configured ← get sensorConfigured;
  if configured : bool then
    emit EvSensorShutDown;;
    modify (set_sensorConfigured false);;
    debugPrint DEBUG_INFO "Sensor shut down (power saving)"
  else mret tt.

Definition resetStreamingState : M unit :=
  modify (set_streaming false);;
  modify (set_seqNumber 0);;
  modify (set_bufferCount 0);;
  modify (set_readIndex 0);;
  modify (set_writeIndex 0);;
  modify (set_totalSamplesDuringStream 0);;
  debugPrint DEBUG_INFO "Streaming state reset".

(** Body of the [while (particleSensor.available())] loop of [pollSensor]
    for one sample pair [(ir, red)] read from the sensor FIFO. *)
Definition pollSensor_body (ir red : Z) : M unit :=
  count ← get bufferCount;
  (if count <? BUFFER_SIZE then
     w ← get writeIndex;
     modify (λ s, set_irRingBuffer (aset (irRingBuffer s) w ir) s);;
     modify (λ s, set_redRingBuffer (aset (redRingBuffer s) w red) s);;
     modify (set_writeIndex (Z.rem (w + 1) BUFFER_SIZE));;
     modify (λ s, set_bufferCount (bufferCount s + 1) s)
   else debugPrint DEBUG_INFO "BUFFER OVERFLOW");;
  modify (λ s, set_totalSamplesDuringStream
                 (wrap32 (totalSamplesDuringStream s + 1)) s).

Fixpoint pollSensor_loop (avail : list (Z * Z)) (samplesRead : Z) : M Z :=
  match avail with
  | [] => mret samplesRead
  | (ir, red) :: rest =>
      pollSensor_body ir red;;
      pollSensor_loop rest (samplesRead + 1)
  end.

(** [pollSensor]; [avail] is what the sensor driver delivers at this call
    ([check], then [getFIFOIR] / [getFIFORed] / [nextSample] while
    [available]), in production order. *)
Definition pollSensor (avail : list (Z * Z)) : M Z :=
  on ← get streaming;
  if negb on then mret 0
  else pollSensor_loop avail 0.

Definition extractChunk_body (i : Z) : M unit :=
  r ← get readIndex;
  modify (λ s, set_irChunk (aset (irChunk s) i (aget (irRingBuffer s) r)) s);;
  modify (λ s, set_redChunk (aset (redChunk s) i (aget (redRingBuffer s) r)) s);;
  modify (set_readIndex (Z.rem (r + 1) BUFFER_SIZE)).

Definition extractChunk : M bool :=
  count ← get bufferCount;
  if count <? CHUNK_SIZE then mret false
  else
    forM (seqZ 0 CHUNK_SIZE) extractChunk_body;;
    modify (λ s, set_bufferCount (bufferCount s - CHUNK_SIZE) s);;
    mret true.

(** One iteration of the inner loop of [transmitChunk]: sample [s] of
    packet [p] is written big-endian at [packet[idx++]]. *)
Definition pack_sample (irC redC : list Z) (p : Z)
    (st : list Z * Z) (s : Z) : list Z * Z :=
  let ir := aget irC (p * BATCH_SIZE + s) in
  let red := aget redC (p * BATCH_SIZE + s) in
  let w (st : list Z * Z) (b : Z) := (aset st.1 st.2 b, st.2 + 1) in
  let st := w st (Z.land (Z.shiftr ir 24) 255) in
  let st := w st (Z.land (Z.shiftr ir 16) 255) in
  let st := w st (Z.land (Z.shiftr ir 8) 255) in
  let st := w st (Z.land ir 255) in
  let st := w st (Z.land (Z.shiftr red 24) 255) in
  let st := w st (Z.land (Z.shiftr red 16) 255) in
  let st := w st (Z.land (Z.shiftr red 8) 255) in
  let st := w st (Z.land red 255) in
  st.

(** The local [packet] of iteration [p]; [init] stands for the contents of
    the uninitialised array. *)
Definition build_packet_from (init : list Z) (seq : Z) (irC redC : list Z) (p : Z)
    : list Z :=
  let packet := aset init 0 seq in
  (foldl (pack_sample irC redC p) (packet, 1) (seqZ 0 BATCH_SIZE)).1.

Definition build_packet : Z → list Z → list Z → Z → list Z :=
  build_packet_from (replicate (Z.to_nat PACKET_SIZE) 0).

Definition transmitChunk : M bool :=
  ok ← extractChunk;
  if negb ok then mret false
  else
    modify (λ s, set_seqNumber (wrap8 (seqNumber s + 1)) s);;
    let numPackets := CHUNK_SIZE ÷ BATCH_SIZE in
    forM (seqZ 0 numPackets) (λ p,
      s ← get id;
      emit (EvNotify (build_packet (seqNumber s) (irChunk s) (redChunk s) p));;
      emit (EvDelay PACKET_PACING_MS));;
    (if DEBUG_INFO <=? debug_level then
       seq ← get seqNumber;
       emit (EvChunkSent (seq - 1))
     else mret tt);;
    mret true.

(** [handleCommands]; [written] is [None] when [commandChar.written()] is
    false and otherwise holds [commandChar.value()[0]]. *)
Definition handleCommands (written : option ascii) (now : Z) : M bool :=
  match written with
  | None => mret false
  | Some cmd =>
      on ← get streaming;
      if Ascii.eqb cmd "S"%char && negb on then
        debugPrint DEBUG_INFO "Command: START streaming";;
        configured ← get sensorConfigured;
        (if negb configured then configureSensor else mret tt);;
        modify (set_streaming true);;
        modify (set_streamingStartTime now);;
        mret true
      else if Ascii.eqb cmd "P"%char then
        debugPrint DEBUG_INFO "Command: PAUSE streaming";;
        modify (set_streaming false);;
        printStreamingSummary now;;
        mret true
      else mret false
  end.

Definition handleDisconnect (now : Z) : M unit :=
  printStreamingSummary now;;
  resetStreamingState;;
  shutdownSensor;;
  emit EvAdvertise;;
  debugPrint DEBUG_INFO "Disconnected - re-advertising".

(** One pass of the [while (central.connected())] loop. *)
Record Pass : Type := mkPass {
  pass_written : option ascii;     (* command written since the last pass *)
  pass_now : Z;                    (* millis() *)
  pass_avail : list (Z * Z)        (* samples waiting in the sensor FIFO *)
}.

Definition loop_pass (p : Pass) : M unit :=
  handleCommands (pass_written p) (pass_now p);;
  pollSensor (pass_avail p);;
  transmitChunk;;
  emit EvBlePoll.

Fixpoint loop_while (passes : list Pass) : M unit :=
  match passes with
  | [] => mret tt
  | p :: rest => loop_pass p;; loop_while rest
  end.

(** [loop] when a central has connected: the connection lasts for
    [passes] and the disconnect is noticed at time [now]. *)
Definition loop (passes : list Pass) (now : Z) : M unit :=
  resetStreamingState;;
  loop_while passes;;
  handleDisconnect now.

(** ** Traces of procedure calls *)

(** The calls [loop] makes, one at a time. *)
Inductive Input : Type :=
  | InConnect
  | InCommand (written : option ascii) (now : Z)
  | InPoll (avail : list (Z * Z))
  | InTransmit
  | InBlePoll
  | InDisconnect (now : Z).

Definition step (i : Input) : M unit :=
  match i with
  | InConnect => resetStreamingState
  | InCommand written now => handleCommands written now;; mret tt
  | InPoll avail => pollSensor avail;; mret tt
  | InTransmit => transmitChunk;; mret tt
  | InBlePoll => emit EvBlePoll
  | InDisconnect now => handleDisconnect now
  end.

Fixpoint run (inputs : list Input) : M unit :=
  match inputs with
  | [] => mret tt
  | i :: rest => step i;; run rest
  end.

End Firmware.

(** ** The buffer as a queue *)

(** The [k] sample pairs stored from the read index on, oldest first. *)
Definition ring_slice (s : State) (k : Z) : list (Z * Z) :=
  (λ j, (aget (irRingBuffer s) ((readIndex s + j) mod BUFFER_SIZE),
         aget (redRingBuffer s) ((readIndex s + j) mod BUFFER_SIZE)))
    <$> seqZ 0 k.

(** The unread samples, oldest first. *)
Definition contents (s : State) : list (Z * Z) := ring_slice s (bufferCount s).

(** The chunk arrays as sample pairs. *)
Definition chunk_pairs (s : State) : list (Z * Z) := zip (irChunk s) (redChunk s).

(** Shape of the arrays and of the indices. *)
Record buffer_wf (s : State) : Prop := mk_buffer_wf {
  wf_ir_len : length (irRingBuffer s) = Z.to_nat BUFFER_SIZE;
  wf_red_len : length (redRingBuffer s) = Z.to_nat BUFFER_SIZE;
  wf_irC_len : length (irChunk s) = Z.to_nat CHUNK_SIZE;
  wf_redC_len : length (redChunk s) = Z.to_nat CHUNK_SIZE;
  wf_read : 0 ≤ readIndex s < BUFFER_SIZE;
  wf_write : 0 ≤ writeIndex s < BUFFER_SIZE;
  wf_count : 0 ≤ bufferCount s ≤ BUFFER_SIZE;
  wf_link : writeIndex s = (readIndex s + bufferCount s) mod BUFFER_SIZE
}.

(** Decision procedure for [buffer_wf], for concrete states. *)
Definition buffer_wfb (s : State) : bool :=
  (length (irRingBuffer s) =? Z.to_nat BUFFER_SIZE)%nat
  && (length (redRingBuffer s) =? Z.to_nat BUFFER_SIZE)%nat
  && (length (irChunk s) =? Z.to_nat CHUNK_SIZE)%nat
  && (length (redChunk s) =? Z.to_nat CHUNK_SIZE)%nat
  && (0 <=? readIndex s) && (readIndex s <? BUFFER_SIZE)
  && (0 <=? writeIndex s) && (writeIndex s <? BUFFER_SIZE)
  && (0 <=? bufferCount s) && (bufferCount s <=? BUFFER_SIZE)
  && (writeIndex s =? (readIndex s + bufferCount s) mod BUFFER_SIZE).

(** ** Unfolding the monad *)

Ltac munfold :=
  unfold mbind, mret, M_bind, M_ret, bind, ret, get, modify, emit,
    result, state_of, events in *.

Ltac msimpl := munfold; cbn [fst snd] in *.


(** Record projections and field updates. *)
Ltac ssimpl :=
  unfold set_seqNumber, set_irRingBuffer, set_redRingBuffer, set_writeIndex,
    set_readIndex, set_bufferCount, set_irChunk, set_redChunk,
    set_streamingStartTime, set_totalSamplesDuringStream, set_streaming,
    set_sensorConfigured in *;
  cbn [seqNumber irRingBuffer redRingBuffer writeIndex readIndex bufferCount
       irChunk redChunk streamingStartTime totalSamplesDuringStream streaming
       sensorConfigured fst snd] in *.

(** ** Buffer operations in sequence *)

(** A push is the loop body of [pollSensor] on one sample pair, an
    extraction is a call of [extractChunk]. *)
Inductive BufOp : Type :=
  | OpPush (ir red : Z)
  | OpExtract.

(** Final state, and the chunks handed over by the extractions that
    returned [true], in the order of the calls. *)
Fixpoint run_ops (lvl : Z) (ops : list BufOp) (s : State)
    : State * list (list (Z * Z)) :=
  match ops with
  | [] => (s, [])
  | OpPush ir red :: rest =>
      run_ops lvl rest (state_of (pollSensor_body lvl ir red s))
  | OpExtract :: rest =>
      let r := extractChunk s in
      let out := run_ops lvl rest (state_of r) in
      if result r then (out.1, chunk_pairs (state_of r) :: out.2) else out
  end.

(** The samples offered to the buffer, in production order. *)
Fixpoint pushed (ops : list BufOp) : list (Z * Z) :=
  match ops with
  | [] => []
  | OpPush ir red :: rest => (ir, red) :: pushed rest
  | OpExtract :: rest => pushed rest
  end.

(** Every push finds the buffer below capacity. *)
Fixpoint below_capacity (lvl : Z) (ops : list BufOp) (s : State) : bool :=
  match ops with
  | [] => true
  | OpPush ir red :: rest =>
      (bufferCount s <? BUFFER_SIZE)
      && below_capacity lvl rest (state_of (pollSensor_body lvl ir red s))
  | OpExtract :: rest => below_capacity lvl rest (state_of (extractChunk s))
  end.

(** The buffer in the words of its contract: a queue of at most
    [BUFFER_SIZE] samples.  A push appends the sample when there is room
    and drops it otherwise; an extraction succeeds exactly when
    [CHUNK_SIZE] samples are queued, and then returns the [CHUNK_SIZE]
    oldest ones in order and removes them.  Result: the final queue, and
    the chunks returned, in the order of the calls. *)
Fixpoint fifo_ops (ops : list BufOp) (q : list (Z * Z))
    : list (Z * Z) * list (list (Z * Z)) :=
  match ops with
  | [] => (q, [])
  | OpPush ir red :: rest =>
      fifo_ops rest
        (if Z.of_nat (length q) <? BUFFER_SIZE then q ++ [(ir, red)] else q)
  | OpExtract :: rest =>
      if CHUNK_SIZE <=? Z.of_nat (length q)
      then let out := fifo_ops rest (drop (Z.to_nat CHUNK_SIZE) q) in
           (out.1, take (Z.to_nat CHUNK_SIZE) q :: out.2)
      else fifo_ops rest q
  end.

(** ** What the procedures print *)

(** The line [debugPrint level msg] prints in a build of verbosity [lvl]. *)
Definition debug_line (lvl level : Z) (msg : string) : list Event :=
  if level <=? lvl then [EvDebug msg] else [].

(** The summary [printStreamingSummary] prints in state [s] at time [now]. *)
Definition summary_of (now : Z) (s : State) : list Event :=
  if totalSamplesDuringStream s =? 0 then []
  else [EvSummary (wrap32 (now - streamingStartTime s))
          (totalSamplesDuringStream s) (seqNumber s)].

(** The frames of the chunk held in [irChunk] / [redChunk], as the outer
    loop of [transmitChunk] builds them. *)
Definition chunk_frames (seq : Z) (irC redC : list Z) : list (list Z) :=
  (λ p, build_packet seq irC redC p) <$> seqZ 0 (CHUNK_SIZE ÷ BATCH_SIZE).

(** The packets handed to the BLE stack among some events. *)
Fixpoint notified (evs : list Event) : list (list Z) :=
  match evs with
  | [] => []
  | EvNotify packet :: rest => packet :: notified rest
  | _ :: rest => notified rest
  end.

(** What [pollSensor] leaves alone. *)
Definition poll_frame (s s' : State) : Prop :=
  seqNumber s' = seqNumber s ∧ streaming s' = streaming s
  ∧ sensorConfigured s' = sensorConfigured s
  ∧ streamingStartTime s' = streamingStartTime s
  ∧ irChunk s' = irChunk s ∧ redChunk s' = redChunk s.

(** ** Frame layout *)

(** A 32-bit value as 4 bytes, most significant first. *)
Definition be_bytes (x : Z) : list Z :=
  [Z.land (Z.shiftr x 24) 255; Z.land (Z.shiftr x 16) 255;
   Z.land (Z.shiftr x 8) 255; Z.land x 255].

(** The frame layout in the words of the interface description: one
    sequence byte, then for each sample in order IR and Red, 4 big-endian
    bytes each.  [build_packet_layout] compares it with the array writes
    of [transmitChunk]. *)
Definition frame_layout (seq : Z) (samples : list (Z * Z)) : list Z :=
  seq :: (samples ≫= λ x, be_bytes x.1 ++ be_bytes x.2).

(** The samples packet [p] reads from the chunk arrays, the first [k] of them. *)
Definition packet_samples (irC redC : list Z) (p k : Z) : list (Z * Z) :=
  (λ s, (aget irC (p * BATCH_SIZE + s), aget redC (p * BATCH_SIZE + s)))
    <$> seqZ 0 k.

Definition uint32 (x : Z) : Prop := 0 ≤ x < 2 ^ 32.
Definition uint32_pair (x : Z * Z) : Prop := uint32 x.1 ∧ uint32 x.2.

(** Modelled from the spec: the receiving (host) side is not part of the
    firmware source.  Following the description of the data endpoint, a
    frame carries, after the sequence byte 0, sample [k] in bytes [8k+1]
    to [8k+8]: IR then Red, 4 bytes each, most significant byte first;
    the frames of a chunk follow each other oldest first. *)
Definition be32 (frame : list Z) (i : Z) : Z :=
  aget frame i * 2 ^ 24 + aget frame (i + 1) * 2 ^ 16
  + aget frame (i + 2) * 2 ^ 8 + aget frame (i + 3).

Definition decode_sample (frame : list Z) (k : Z) : Z * Z :=
  (be32 frame (8 * k + 1), be32 frame (8 * k + 5)).

Definition decode_frame (frame : list Z) : list (Z * Z) :=
  decode_sample frame <$> seqZ 0 BATCH_SIZE.

Definition decode_frames (frames : list (list Z)) : list (Z * Z) :=
  frames ≫= decode_frame.

(** ** Frame groups of a run *)

(** Inputs that occur inside one connection. *)
Definition within_connection (inputs : list Input) : bool :=
  forallb (λ i, match i with InConnect | InDisconnect _ => false | _ => true end)
    inputs.

(** The packets of each call of [transmitChunk] that returned [true], one
    group per call, in the order of the calls. *)
Fixpoint frame_groups (lvl : Z) (inputs : list Input) (s : State)
    : list (list (list Z)) :=
  match inputs with
  | [] => []
  | i :: rest =>
      let groups := frame_groups lvl rest (state_of (step lvl i s)) in
      match i with
      | InTransmit =>
          if result (transmitChunk lvl s)
          then notified (events (transmitChunk lvl s)) :: groups
          else groups
      | _ => groups
      end
  end.

(** The sequence bytes (byte 0) of the frames of each group. *)
Definition seq_bytes (groups : list (list (list Z))) : list (list (option Z)) :=
  (λ group : list (list Z), (λ f : list Z, f !! 0%nat) <$> group) <$> groups.

(** ** States that later calls cannot tell apart *)

(** Same control fields, same queue of unread samples; the start time
    matters only once a session has been started.  The ring slots outside
    the unread region, the chunk arrays and a stale start time may differ. *)
Record obs_eq (s1 s2 : State) : Prop := mk_obs_eq {
  oe_wf1 : buffer_wf s1;
  oe_wf2 : buffer_wf s2;
  oe_seq : seqNumber s1 = seqNumber s2;
  oe_count : bufferCount s1 = bufferCount s2;
  oe_total : totalSamplesDuringStream s1 = totalSamplesDuringStream s2;
  oe_streaming : streaming s1 = streaming s2;
  oe_configured : sensorConfigured s1 = sensorConfigured s2;
  oe_contents : contents s1 = contents s2;
  oe_start :
    streamingStartTime s1 = streamingStartTime s2
    ∨ (streaming s1 = false ∧ totalSamplesDuringStream s1 = 0)
}.

(** The session summaries among some events. *)
Fixpoint summaries (evs : list Event) : list Event :=
  match evs with
  | [] => []
  | EvSummary e c k :: rest => EvSummary e c k :: summaries rest
  | _ :: rest => summaries rest
  end.

(** ** [loop] as a trace of calls *)

Definition pass_inputs (p : Pass) : list Input :=
  [InCommand (pass_written p) (pass_now p); InPoll (pass_avail p);
   InTransmit; InBlePoll].

Definition loop_inputs (passes : list Pass) (now : Z) : list Input :=
  InConnect :: (passes ≫= pass_inputs) ++ [InDisconnect now].

(** ** Concrete sessions *)

(** [n] distinct sample pairs. *)
Definition ramp (n : Z) : list (Z * Z) :=
  (λ k, (100000 + k, 200000 + k)) <$> seqZ 0 n.

(** Connect, start at 0 ms, capture three samples, pause at 1000 ms. *)
Definition paused_session : list Input :=
  [InConnect; InCommand (Some "S"%char) 0; InPoll (ramp 3);
   InCommand (Some "P"%char) 1000].

(** Connect and start at 0 ms; nothing captured yet. *)
Definition fresh_session : list Input :=
  [InConnect; InCommand (Some "S"%char) 0].

(** Forty pushes, an extraction, thirty pushes, two extractions. *)
Definition demo_ops : list BufOp :=
  ((λ x : Z * Z, OpPush x.1 x.2) <$> ramp 40) ++ [OpExtract]
  ++ ((λ x : Z * Z, OpPush x.1 x.2) <$> ramp 30) ++ [OpExtract; OpExtract].

(** Connect, start, and a poll that fills the whole buffer. *)
Definition filling_session : list Input :=
  [InConnect; InCommand (Some "S"%char) 0; InPoll (ramp BUFFER_SIZE)].

(** Inside a connection: start, then two chunks captured and sent. *)
Definition two_chunks : list Input :=
  [InCommand (Some "S"%char) 0; InPoll (ramp 32); InTransmit;
   InPoll (ramp 32); InTransmit].

(** Inside a connection: a session that sends one chunk, then a second
    session in which nothing is captured. *)
Definition two_sessions : list Input :=
  [InCommand (Some "S"%char) 0; InPoll (ramp 32); InTransmit;
   InCommand (Some "P"%char) 1000; InCommand (Some "S"%char) 2000].

(** Connect, start, capture two chunks' worth in one poll, send one chunk,
    pause. *)
Definition paused_with_backlog : list Input :=
  [InConnect; InCommand (Some "S"%char) 0; InPoll (ramp 64); InTransmit;
   InCommand (Some "P"%char) 1000].

(** Two states in the middle of a connection, sensor configured: one has
    sent a chunk and holds 32 samples, the other holds 40 and has sent
    nothing. *)
Definition left_over_a : State := state_of (run DEBUG_LEVEL paused_with_backlog boot).
Definition left_over_b : State :=
  state_of (run DEBUG_LEVEL
              [InConnect; InCommand (Some "S"%char) 700; InPoll (ramp 40)] boot).

(** Three passes: start and 20 samples, 20 samples, pause. *)
Definition demo_passes : list Pass :=
  [mkPass (Some "S"%char) 100 (ramp 20); mkPass None 200 (ramp 20);
   mkPass (Some "P"%char) 300 []].

(** A session started at 5000 ms, dropped at 6000 ms, then a new
    connection. *)
Definition reconnect_session : list Input :=
  [InConnect; InCommand (Some "S"%char) 5000; InPoll (ramp 3);
   InDisconnect 6000; InConnect].

(** ** Start-up *)

(** Calls made before the first connection can be served. *)
Inductive BootEvent : Type :=
  | BvSerialBegin (baud : Z)                (* Serial.begin(baud) *)
  | BvSensorBegin                           (* particleSensor.begin(Wire, I2C_SPEED_FAST) *)
  | BvBleBegin                              (* BLE.begin() *)
  | BvSetLocalName (name : string)          (* BLE.setLocalName(name) *)
  | BvSetAdvertisedService                  (* BLE.setAdvertisedService(ppgService) *)
  | BvAddCharacteristic (uuid : string)     (* ppgService.addCharacteristic(...) *)
  | BvAddService                            (* BLE.addService(ppgService) *)
  | BvAdvertise                             (* BLE.advertise() *)
  | BvDebug (msg : string).                 (* line of debugPrint *)

(** How far [setup] gets. *)
Inductive SetupOutcome : Type :=
  | SetupWaiting
  | SetupHalted
  | SetupDone.

Definition PPG_SERVICE_UUID : string := "180D".
Definition COMMAND_CHAR_UUID : string := "2A37".
Definition DATA_CHAR_UUID : string := "2A38".

Section Startup.

Variable debug_level : Z.

Definition boot_debug (level : Z) (msg : string) : list BootEvent :=
  if level <=? debug_level then [BvDebug msg] else [].

(** [initSensor]; [found] is the answer of [particleSensor.begin]. *)
Definition initSensor (found : bool) : bool * list BootEvent :=
  if negb found
  then (false, BvSensorBegin :: boot_debug DEBUG_INFO "MAX30102 not found – check wiring!")
  else (true, BvSensorBegin :: boot_debug DEBUG_INFO "Sensor initialized").

(** [initBLE]; [began] is the answer of [BLE.begin]. *)
Definition initBLE (began : bool) : bool * list BootEvent :=
  if negb began
  then (false, BvBleBegin :: boot_debug DEBUG_INFO "BLE initialization failed!")
  else (true,
        [BvBleBegin; BvSetLocalName "PPG_Sensor"; BvSetAdvertisedService;
         BvAddCharacteristic COMMAND_CHAR_UUID; BvAddCharacteristic DATA_CHAR_UUID;
         BvAddService; BvAdvertise]
        ++ boot_debug DEBUG_INFO "BLE advertising started").

(** [while (!Serial);]: [reads] are the values [Serial] takes at the
    successive tests, as far as they are observed; the loop is left at the
    first [true], and goes on waiting when there is none. *)
Fixpoint serial_ready (reads : list bool) : bool :=
  match reads with
  | [] => false
  | r :: rest => if r then true else serial_ready rest
  end.

(** [setup]: [SetupDone] when it returns and [loop] starts running,
    [SetupWaiting] while it is still in [while (!Serial);], [SetupHalted]
    when it has stopped in one of the [while (1);]. *)
Definition setup (reads : list bool) (found began : bool)
    : SetupOutcome * list BootEvent :=
  if negb (serial_ready reads) then (SetupWaiting, [BvSerialBegin 115200])
  else
    let r1 := initSensor found in
    if negb r1.1 then (SetupHalted, BvSerialBegin 115200 :: r1.2)
    else
      let r2 := initBLE began in
      if negb r2.1 then (SetupHalted, BvSerialBegin 115200 :: r1.2 ++ r2.2)
      else (SetupDone, BvSerialBegin 115200 :: r1.2 ++ r2.2).

End Startup.

(** ** Counting calls *)

Fixpoint count_ev (p : Event → bool) (evs : list Event) : nat :=
  match evs with
  | [] => 0%nat
  | e :: rest => ((if p e then 1 else 0) + count_ev p rest)%nat
  end.

Definition is_setup (e : Event) : bool :=
  match e with EvSensorSetup => true | _ => false end.
Definition is_clear (e : Event) : bool :=
  match e with EvSensorClearFIFO => true | _ => false end.
Definition is_shutdown (e : Event) : bool :=
  match e with EvSensorShutDown => true | _ => false end.
Definition is_advertise (e : Event) : bool :=
  match e with EvAdvertise => true | _ => false end.
Definition is_notify (e : Event) : bool :=
  match e with EvNotify _ => true | _ => false end.

Definition b2n (b : bool) : nat := if b then 1%nat else 0%nat.

(** Samples among [n] offered that find the buffer full when [count] are
    already stored. *)
Definition dropped (count n : Z) : Z := Z.max 0 (count + n - BUFFER_SIZE).

(** A pass in which the sensor delivers at most one chunk's worth. *)
Definition nominal_load (passes : list Pass) : bool :=
  forallb (λ p, Z.of_nat (length (pass_avail p)) <=? CHUNK_SIZE) passes.

(** What [handleCommands] leaves alone. *)
Definition command_frame (s s' : State) : Prop :=
  seqNumber s' = seqNumber s
  ∧ irRingBuffer s' = irRingBuffer s ∧ redRingBuffer s' = redRingBuffer s
  ∧ writeIndex s' = writeIndex s ∧ readIndex s' = readIndex s
  ∧ bufferCount s' = bufferCount s
  ∧ irChunk s' = irChunk s ∧ redChunk s' = redChunk s
  ∧ totalSamplesDuringStream s' = totalSamplesDuringStream s.

(** A byte. *)
Definition uint8 (x : Z) : Prop := 0 ≤ x < 256.

(** ** What enters and leaves the buffer during a run *)

(** The samples the sensor delivers over a run, in production order. *)
Fixpoint offered (inputs : list Input) : list (Z * Z) :=
  match inputs with
  | [] => []
  | InPoll avail :: rest => avail ++ offered rest
  | _ :: rest => offered rest
  end.

(** The samples that are buffered over a run: those polled while
    Streaming, each poll cut at the room left in the buffer. *)
Fixpoint accepted (lvl : Z) (inputs : list Input) (s : State) : list (Z * Z) :=
  match inputs with
  | [] => []
  | i :: rest =>
      match i with
      | InPoll avail =>
          if streaming s
          then take (Z.to_nat (BUFFER_SIZE - bufferCount s)) avail
          else []
      | _ => []
      end ++ accepted lvl rest (state_of (step lvl i s))
  end.

(** What the receiving side decodes from the frames of a run. *)
Definition received (lvl : Z) (inputs : list Input) (s : State) : list (Z * Z) :=
  frame_groups lvl inputs s ≫= decode_frames.

Fixpoint count_bv (p : BootEvent → bool) (evs : list BootEvent) : nat :=
  match evs with
  | [] => 0%nat
  | e :: rest => ((if p e then 1 else 0) + count_bv p rest)%nat
  end.

Definition is_bv_advertise (e : BootEvent) : bool :=
  match e with BvAdvertise => true | _ => false end.
Definition is_bv_sensor (e : BootEvent) : bool :=
  match e with BvSensorBegin => true | _ => false end.
Definition is_bv_ble (e : BootEvent) : bool :=
  match e with
  | BvBleBegin | BvSetLocalName _ | BvSetAdvertisedService
  | BvAddCharacteristic _ | BvAddService | BvAdvertise => true
  | _ => false
  end.

(** Thirty passes of 20 samples with a start command in the first one. *)
Definition steady_passes : list Pass :=
  mkPass (Some "S"%char) 0 (ramp 20) :: replicate 29 (mkPass None 0 (ramp 20)).

(** Connect, start, and a poll that offers more than the buffer holds. *)
Definition overflowing_session : list Input :=
  [InConnect; InCommand (Some "S"%char) 0; InPoll (ramp 990)].

(** Inside a connection: start, then 70 samples and two transmissions. *)
Definition busy_connection : list Input :=
  [InCommand (Some "S"%char) 0; InPoll (ramp 40); InTransmit;
   InPoll (ramp 30); InTransmit; InBlePoll].

(** Decision procedure for [uint32_pair]. *)
Definition uint32_pairb (x : Z * Z) : bool :=
  (0 <=? x.1) && (x.1 <? 2 ^ 32) && (0 <=? x.2) && (x.2 <? 2 ^ 32).

(** States used to instantiate the theorems. *)
Definition started_state : State := state_of (run DEBUG_LEVEL fresh_session boot).
Definition nearly_full_state : State :=
  state_of (run DEBUG_LEVEL overflowing_session boot).
Definition connected_state : State := state_of (run DEBUG_LEVEL [InConnect] boot).
Definition chunk_ready_state : State :=
  state_of (run DEBUG_LEVEL (fresh_session ++ [InPoll (ramp 40)]) boot).
(** ** Derived sizes *)

Lemma BUFFER_SIZE_val : BUFFER_SIZE = 1000.
Proof. reflexivity. Qed.

Lemma CHUNK_SIZE_val : CHUNK_SIZE = 32.
Proof. reflexivity. Qed.

Lemma PACKET_SIZE_val : PACKET_SIZE = 129.
Proof. reflexivity. Qed.

Lemma numPackets_val : CHUNK_SIZE ÷ BATCH_SIZE = 2.
Proof. reflexivity. Qed.

Lemma CHUNK_SIZE_multiple : Z.rem CHUNK_SIZE BATCH_SIZE = 0.
Proof. reflexivity. Qed.

Lemma buffer_wfb_sound s : buffer_wfb s = true → buffer_wf s.
Proof.
  unfold buffer_wfb. rewrite !andb_true_iff.
  rewrite !Nat.eqb_eq, !Z.leb_le, !Z.ltb_lt, Z.eqb_eq.
  intros H. decompose [and] H. by constructor.
Qed.

Lemma forM_app l1 l2 body s :
  forM (l1 ++ l2) body s =
  (forM l1 body;; forM l2 body) s.
Proof.
  revert s. induction l1 as [|i l1 IH]; intros s; cbn [forM app].
  - msimpl. by destruct (forM l2 body s) as [[[] ?] ?].
  - msimpl. rewrite IH. msimpl. by rewrite app_assoc.
Qed.

(** ** Arrays written and read through a position *)

Lemma aset_middle (pre rest : list Z) (x v i : Z) :
  i = Z.of_nat (length pre) →
  aset (pre ++ x :: rest) i v = pre ++ v :: rest.
Proof.
  intros ->. unfold aset. rewrite Nat2Z.id.
  replace (length pre) with (length pre + 0)%nat by lia.
  by rewrite insert_app_r.
Qed.

Lemma aget_middle (pre rest : list Z) (x i : Z) :
  i = Z.of_nat (length pre) →
  aget (pre ++ x :: rest) i = x.
Proof.
  intros ->. unfold aget. rewrite Nat2Z.id.
  by rewrite lookup_app_r, Nat.sub_diag by lia.
Qed.

Lemma aget_aset_eq (a : list Z) (i v : Z) :
  (Z.to_nat i < length a)%nat → aget (aset a i v) i = v.
Proof. intros H. unfold aget, aset. by rewrite list_lookup_insert_eq. Qed.

Lemma aget_aset_ne (a : list Z) (i j v : Z) :
  0 ≤ i → 0 ≤ j → i ≠ j → aget (aset a i v) j = aget a j.
Proof.
  intros Hi Hj Hne. unfold aget, aset.
  by rewrite list_lookup_insert_ne by lia.
Qed.

Lemma length_aset (a : list Z) (i v : Z) : length (aset a i v) = length a.
Proof. apply length_insert. Qed.

(** ** One sample through the loop body of [pollSensor] *)

Lemma pollSensor_body_accept lvl ir red s :
  bufferCount s < BUFFER_SIZE →
  pollSensor_body lvl ir red s =
    (tt,
     mkState (seqNumber s)
       (aset (irRingBuffer s) (writeIndex s) ir)
       (aset (redRingBuffer s) (writeIndex s) red)
       (Z.rem (writeIndex s + 1) BUFFER_SIZE) (readIndex s) (bufferCount s + 1)
       (irChunk s) (redChunk s) (streamingStartTime s)
       (wrap32 (totalSamplesDuringStream s + 1)) (streaming s)
       (sensorConfigured s),
     []).
Proof.
  intros Hlt. unfold pollSensor_body. msimpl.
  apply Z.ltb_lt in Hlt. rewrite Hlt. reflexivity.
Qed.

Lemma pollSensor_body_reject lvl ir red s :
  BUFFER_SIZE ≤ bufferCount s →
  pollSensor_body lvl ir red s =
    (tt,
     set_totalSamplesDuringStream (wrap32 (totalSamplesDuringStream s + 1)) s,
     if DEBUG_INFO <=? lvl then [EvDebug "BUFFER OVERFLOW"] else []).
Proof.
  intros Hge. unfold pollSensor_body, debugPrint. msimpl.
  apply Z.ltb_ge in Hge. rewrite Hge.
  destruct (DEBUG_INFO <=? lvl); reflexivity.
Qed.

Lemma pollSensor_body_wf lvl ir red s :
  buffer_wf s → buffer_wf (state_of (pollSensor_body lvl ir red s)).
Proof.
  intros [H1 H2 H3 H4 H5 H6 H7 H8].
  destruct (Z.lt_ge_cases (bufferCount s) BUFFER_SIZE) as [Hlt|Hge].
  - rewrite pollSensor_body_accept by done. unfold state_of; cbn [fst snd].
    rewrite BUFFER_SIZE_val in *.
    constructor; ssimpl;
      rewrite ?length_aset, ?BUFFER_SIZE_val; try done.
    + rewrite Z.rem_mod_nonneg by lia. lia.
    + lia.
    + rewrite Z.rem_mod_nonneg by lia. lia.
  - rewrite pollSensor_body_reject by done. by constructor.
Qed.

Lemma pollSensor_body_contents lvl ir red s :
  buffer_wf s → bufferCount s < BUFFER_SIZE →
  contents (state_of (pollSensor_body lvl ir red s)) = contents s ++ [(ir, red)].
Proof.
  intros [H1 H2 H3 H4 H5 H6 H7 H8] Hlt.
  rewrite pollSensor_body_accept by done. unfold state_of; cbn [fst snd].
  unfold contents, ring_slice.
  ssimpl. rewrite BUFFER_SIZE_val in *.
  replace (bufferCount s + 1) with (Z.of_nat (S (Z.to_nat (bufferCount s)))) by lia.
  rewrite seqZ_S, fmap_app, Z2Nat.id by lia. f_equal.
  - apply Forall_fmap_ext, Forall_seqZ. intros j Hj.
    rewrite !aget_aset_ne; [done|lia..].
  - cbn [fmap list_fmap]. rewrite Z.add_0_l, <-H8.
    rewrite !aget_aset_eq; [done|lia..].
Qed.

(** ** The copy loop of [extractChunk] *)

Lemma ring_slice_0 s : ring_slice s 0 = [].
Proof. unfold ring_slice. by rewrite seqZ_nil. Qed.

Lemma ring_slice_S s (k : nat) :
  ring_slice s (Z.of_nat (S k)) =
  ring_slice s (Z.of_nat k)
  ++ [(aget (irRingBuffer s) ((readIndex s + Z.of_nat k) mod BUFFER_SIZE),
       aget (redRingBuffer s) ((readIndex s + Z.of_nat k) mod BUFFER_SIZE))].
Proof. unfold ring_slice. by rewrite seqZ_S, fmap_app. Qed.

Lemma length_ring_slice s k : length (ring_slice s k) = Z.to_nat k.
Proof. unfold ring_slice. by rewrite length_fmap, length_seqZ. Qed.

Lemma extractChunk_loop (k : nat) s :
  (k ≤ Z.to_nat CHUNK_SIZE)%nat →
  length (irChunk s) = Z.to_nat CHUNK_SIZE →
  length (redChunk s) = Z.to_nat CHUNK_SIZE →
  0 ≤ readIndex s < BUFFER_SIZE →
  forM (seqZ 0 (Z.of_nat k)) extractChunk_body s =
    (tt,
     mkState (seqNumber s) (irRingBuffer s) (redRingBuffer s) (writeIndex s)
       ((readIndex s + Z.of_nat k) mod BUFFER_SIZE) (bufferCount s)
       ((ring_slice s (Z.of_nat k)).*1 ++ drop k (irChunk s))
       ((ring_slice s (Z.of_nat k)).*2 ++ drop k (redChunk s))
       (streamingStartTime s) (totalSamplesDuringStream s) (streaming s)
       (sensorConfigured s),
     []).
Proof.
  intros Hk Hir Hred Hr. induction k as [|k IH].
  - rewrite seqZ_nil, ring_slice_0 by lia. cbn [forM fmap list_fmap app drop].
    rewrite Z.add_0_r, Z.mod_small by done. by destruct s.
  - rewrite seqZ_S, forM_app. msimpl. rewrite IH by lia. cbn [fst snd forM].
    unfold extractChunk_body. msimpl.
    ssimpl.
    rewrite ring_slice_S, !fmap_app. cbn [fmap list_fmap fst snd].
    destruct (lookup_lt_is_Some_2 (irChunk s) k) as [x Hx]; [lia|].
    destruct (lookup_lt_is_Some_2 (redChunk s) k) as [y Hy]; [lia|].
    rewrite (drop_S _ _ _ Hx), (drop_S _ _ _ Hy).
    rewrite !aset_middle
      by (by rewrite Z.add_0_l, length_fmap, length_ring_slice, Nat2Z.id).
    rewrite <-!app_assoc. cbn [app].
    ssimpl. f_equal. f_equal. f_equal.
    rewrite BUFFER_SIZE_val in *. rewrite Z.rem_mod_nonneg by lia. lia.
Qed.

(** ** [extractChunk] *)

Lemma extractChunk_fail s :
  bufferCount s < CHUNK_SIZE → extractChunk s = (false, s, []).
Proof.
  intros Hlt. unfold extractChunk. msimpl.
  apply Z.ltb_lt in Hlt. by rewrite Hlt.
Qed.

Lemma extractChunk_ok s :
  buffer_wf s → CHUNK_SIZE ≤ bufferCount s →
  extractChunk s =
    (true,
     mkState (seqNumber s) (irRingBuffer s) (redRingBuffer s) (writeIndex s)
       ((readIndex s + CHUNK_SIZE) mod BUFFER_SIZE) (bufferCount s - CHUNK_SIZE)
       ((ring_slice s CHUNK_SIZE).*1) ((ring_slice s CHUNK_SIZE).*2)
       (streamingStartTime s) (totalSamplesDuringStream s) (streaming s)
       (sensorConfigured s),
     []).
Proof.
  intros [H1 H2 H3 H4 H5 H6 H7 H8] Hge. unfold extractChunk. msimpl.
  apply Z.ltb_ge in Hge. rewrite Hge.
  pose proof (extractChunk_loop (Z.to_nat CHUNK_SIZE) s) as Hloop.
  rewrite Z2Nat.id in Hloop by (rewrite CHUNK_SIZE_val; lia).
  rewrite Hloop by (done || lia). ssimpl.
  by rewrite !drop_ge, !app_nil_r by lia.
Qed.

Lemma ring_slice_take s k n :
  0 ≤ k ≤ n → take (Z.to_nat k) (ring_slice s n) = ring_slice s k.
Proof.
  intros Hk. unfold ring_slice. rewrite <-fmap_take. f_equal.
  replace n with (k + (n - k)) by lia. rewrite seqZ_app by lia.
  apply take_app_length'. by rewrite length_seqZ.
Qed.

Lemma extractChunk_wf s :
  buffer_wf s → buffer_wf (state_of (extractChunk s)).
Proof.
  intros Hwf.
  destruct (Z.lt_ge_cases (bufferCount s) CHUNK_SIZE) as [Hlt|Hge].
  - by rewrite extractChunk_fail.
  - rewrite extractChunk_ok by done. destruct Hwf as [H1 H2 H3 H4 H5 H6 H7 H8].
    unfold state_of. rewrite CHUNK_SIZE_val, BUFFER_SIZE_val in *.
    constructor; ssimpl;
      rewrite ?length_fmap, ?length_ring_slice, ?CHUNK_SIZE_val, ?BUFFER_SIZE_val;
      try done; lia.
Qed.

Lemma extractChunk_chunk s :
  buffer_wf s → CHUNK_SIZE ≤ bufferCount s →
  chunk_pairs (state_of (extractChunk s)) = take (Z.to_nat CHUNK_SIZE) (contents s).
Proof.
  intros Hwf Hge. rewrite extractChunk_ok by done.
  unfold state_of, chunk_pairs, contents. ssimpl.
  rewrite zip_fst_snd, ring_slice_take; [done|].
  rewrite CHUNK_SIZE_val in *. lia.
Qed.

Lemma extractChunk_contents s :
  buffer_wf s → CHUNK_SIZE ≤ bufferCount s →
  contents (state_of (extractChunk s)) = drop (Z.to_nat CHUNK_SIZE) (contents s).
Proof.
  intros Hwf Hge. rewrite extractChunk_ok by done.
  destruct Hwf as [H1 H2 H3 H4 H5 H6 H7 H8].
  unfold state_of, contents, ring_slice. ssimpl.
  rewrite CHUNK_SIZE_val, BUFFER_SIZE_val in *.
  rewrite <-fmap_drop.
  replace (bufferCount s) with (32 + (bufferCount s - 32)) at 2 by lia.
  rewrite seqZ_app by lia.
  rewrite drop_app_length' by (by rewrite length_seqZ).
  rewrite Z.add_0_l, <-(fmap_add_seqZ 32 0), <-list_fmap_compose.
  apply Forall_fmap_ext, Forall_seqZ. intros j Hj. cbn [compose].
  replace (((readIndex s + 32) mod 1000 + j) mod 1000)
    with ((readIndex s + (32 + j)) mod 1000) by lia.
  done.
Qed.

(** ** FIFO order *)

Lemma length_contents s : 0 ≤ bufferCount s → Z.of_nat (length (contents s)) = bufferCount s.
Proof. intros H. unfold contents. rewrite length_ring_slice. lia. Qed.

Lemma run_ops_refines lvl ops :
  ∀ s, buffer_wf s →
    (run_ops lvl ops s).2 = (fifo_ops ops (contents s)).2
    ∧ contents (run_ops lvl ops s).1 = (fifo_ops ops (contents s)).1
    ∧ buffer_wf (run_ops lvl ops s).1.
Proof.
  induction ops as [|[ir red|] ops IH]; intros s Hwf.
  - done.
  - cbn [run_ops fifo_ops].
    pose proof (length_contents s (proj1 (wf_count s Hwf))) as Hlen.
    destruct (IH _ (pollSensor_body_wf lvl ir red s Hwf)) as (H1 & H2 & H3).
    rewrite H1, H2, Hlen.
    destruct (Z.ltb_spec (bufferCount s) BUFFER_SIZE) as [Hlt|Hge].
    + by rewrite pollSensor_body_contents.
    + assert (contents (state_of (pollSensor_body lvl ir red s)) = contents s) as ->
        by (by rewrite pollSensor_body_reject).
      done.
  - cbn [run_ops fifo_ops].
    pose proof (length_contents s (proj1 (wf_count s Hwf))) as Hlen.
    destruct (IH _ (extractChunk_wf s Hwf)) as (H1 & H2 & H3).
    rewrite Hlen.
    destruct (Z.leb_spec CHUNK_SIZE (bufferCount s)) as [Hge|Hlt].
    + assert (result (extractChunk s) = true) as ->
        by (by rewrite extractChunk_ok).
      cbn [fst snd]. rewrite H1, H2.
      by rewrite extractChunk_chunk, extractChunk_contents.
    + rewrite extractChunk_fail in * by done. unfold result, state_of in *.
      by cbn [fst snd] in *.
Qed.

(** C1: for every interleaving of pushes and extractions in which each
    push finds the buffer below capacity, the chunks returned by the
    successful extractions, one after the other, followed by what is still
    buffered, are exactly the initially buffered samples followed by the
    pushed samples in production order; every returned chunk holds
    [CHUNK_SIZE] samples.  The extractions return what the FIFO contract
    says, call by call: each one that finds [CHUNK_SIZE] samples buffered
    succeeds and returns the [CHUNK_SIZE] oldest unread samples in order,
    the others return nothing. *)
Theorem C1_fifo_order lvl ops s :
  buffer_wf s →
  below_capacity lvl ops s = true →
  concat (run_ops lvl ops s).2 ++ contents (run_ops lvl ops s).1
    = contents s ++ pushed ops
  ∧ Forall (λ c, length c = Z.to_nat CHUNK_SIZE) (run_ops lvl ops s).2
  ∧ buffer_wf (run_ops lvl ops s).1
  ∧ (run_ops lvl ops s).2 = (fifo_ops ops (contents s)).2
  ∧ contents (run_ops lvl ops s).1 = (fifo_ops ops (contents s)).1
  ∧ (∀ before after,
       ops = before ++ OpExtract :: after →
       let sb := (run_ops lvl before s).1 in
       CHUNK_SIZE ≤ bufferCount sb →
       result (extractChunk sb) = true
       ∧ chunk_pairs (state_of (extractChunk sb))
         = take (Z.to_nat CHUNK_SIZE) (contents sb)
       ∧ contents (state_of (extractChunk sb))
         = drop (Z.to_nat CHUNK_SIZE) (contents sb)).
Proof.
  intros Hwf0 Hcap0.
  destruct (run_ops_refines lvl ops s Hwf0) as (Hr1 & Hr2 & Hr3).
  assert (concat (run_ops lvl ops s).2 ++ contents (run_ops lvl ops s).1
            = contents s ++ pushed ops
          ∧ Forall (λ c, length c = Z.to_nat CHUNK_SIZE) (run_ops lvl ops s).2)
    as [Hcons Hlens].
  { clear Hr1 Hr2 Hr3. revert s Hwf0 Hcap0.
    induction ops as [|[ir red|] ops IH]; intros s Hwf Hcap.
    - cbn [run_ops pushed fst snd concat app]. by rewrite app_nil_r.
    - cbn [run_ops pushed below_capacity] in *.
      apply andb_true_iff in Hcap as [Hlt Hcap]. apply Z.ltb_lt in Hlt.
      destruct (IH _ (pollSensor_body_wf lvl ir red s Hwf) Hcap) as (Heq & Hlen).
      split; [|done].
      rewrite Heq, pollSensor_body_contents by done. by rewrite <-app_assoc.
    - cbn [run_ops pushed below_capacity] in *.
      destruct (IH _ (extractChunk_wf s Hwf) Hcap) as (Heq & Hlen).
      destruct (Z.lt_ge_cases (bufferCount s) CHUNK_SIZE) as [Hlt|Hge].
      + rewrite extractChunk_fail in * by done. unfold result, state_of in *.
        by cbn [fst snd] in *.
      + assert (result (extractChunk s) = true) as ->
          by (by rewrite extractChunk_ok).
        cbn [fst snd concat]. split.
        * rewrite <-app_assoc, Heq, extractChunk_chunk, extractChunk_contents by done.
          by rewrite app_assoc, take_drop.
        * constructor; [|done].
          rewrite extractChunk_chunk by done. rewrite length_take_le; [done|].
          pose proof (length_contents s). destruct Hwf. lia. }
  split_and!; try done.
  intros before after _ sb Hge.
  destruct (run_ops_refines lvl before s Hwf0) as (_ & _ & Hwfb). fold sb in Hwfb.
  split_and!.
  - by rewrite extractChunk_ok.
  - by apply extractChunk_chunk.
  - by apply extractChunk_contents.
Qed.

(** ** Equations of the procedures *)

Lemma debugPrint_eq lvl level msg s :
  debugPrint lvl level msg s = (tt, s, debug_line lvl level msg).
Proof. unfold debugPrint, debug_line. by destruct (level <=? lvl). Qed.

Lemma printStreamingSummary_eq now s :
  printStreamingSummary now s = (tt, s, summary_of now s).
Proof.
  unfold printStreamingSummary, summary_of. msimpl.
  by destruct (totalSamplesDuringStream s =? 0).
Qed.

Lemma configureSensor_eq lvl s :
  configureSensor lvl s =
    (tt, set_sensorConfigured true s,
     [EvSensorSetup; EvSensorClearFIFO]
     ++ debug_line lvl DEBUG_INFO "Sensor configured for 200 Hz streaming").
Proof. unfold configureSensor. msimpl. by rewrite debugPrint_eq. Qed.

Lemma shutdownSensor_eq lvl s :
  shutdownSensor lvl s =
    (tt, set_sensorConfigured false s,
     if sensorConfigured s
     then EvSensorShutDown :: debug_line lvl DEBUG_INFO "Sensor shut down (power saving)"
     else []).
Proof.
  unfold shutdownSensor. msimpl. destruct (sensorConfigured s) eqn:Hc.
  - msimpl. by rewrite debugPrint_eq.
  - destruct s. cbn in Hc. by subst.
Qed.

Lemma resetStreamingState_eq lvl s :
  resetStreamingState lvl s =
    (tt,
     mkState 0 (irRingBuffer s) (redRingBuffer s) 0 0 0 (irChunk s) (redChunk s)
       (streamingStartTime s) 0 false (sensorConfigured s),
     debug_line lvl DEBUG_INFO "Streaming state reset").
Proof. unfold resetStreamingState. msimpl. by rewrite debugPrint_eq. Qed.

Lemma handleDisconnect_eq lvl now s :
  handleDisconnect lvl now s =
    (tt,
     mkState 0 (irRingBuffer s) (redRingBuffer s) 0 0 0 (irChunk s) (redChunk s)
       (streamingStartTime s) 0 false false,
     summary_of now s
     ++ debug_line lvl DEBUG_INFO "Streaming state reset"
     ++ (if sensorConfigured s
         then EvSensorShutDown :: debug_line lvl DEBUG_INFO "Sensor shut down (power saving)"
         else [])
     ++ [EvAdvertise]
     ++ debug_line lvl DEBUG_INFO "Disconnected - re-advertising").
Proof.
  unfold handleDisconnect. msimpl.
  rewrite printStreamingSummary_eq. cbn [fst snd].
  rewrite resetStreamingState_eq. cbn [fst snd].
  rewrite shutdownSensor_eq. cbn [fst snd].
  rewrite debugPrint_eq. by ssimpl.
Qed.

Lemma handleCommands_none lvl now s :
  handleCommands lvl None now s = (false, s, []).
Proof. reflexivity. Qed.

Lemma handleCommands_start lvl now s :
  streaming s = false →
  handleCommands lvl (Some "S"%char) now s =
    (true,
     mkState (seqNumber s) (irRingBuffer s) (redRingBuffer s) (writeIndex s)
       (readIndex s) (bufferCount s) (irChunk s) (redChunk s) now
       (totalSamplesDuringStream s) true true,
     debug_line lvl DEBUG_INFO "Command: START streaming"
     ++ (if sensorConfigured s then []
         else [EvSensorSetup; EvSensorClearFIFO]
              ++ debug_line lvl DEBUG_INFO "Sensor configured for 200 Hz streaming")).
Proof.
  intros Hoff. unfold handleCommands. msimpl. rewrite Hoff. cbn [Ascii.eqb andb negb Bool.eqb].
  msimpl. rewrite debugPrint_eq. cbn [fst snd].
  destruct (sensorConfigured s) eqn:Hc; cbn [negb]; msimpl.
  - ssimpl. rewrite Hc. by rewrite !app_nil_r.
  - rewrite configureSensor_eq. ssimpl. by rewrite !app_nil_r.
Qed.

Lemma handleCommands_pause lvl now s :
  handleCommands lvl (Some "P"%char) now s =
    (true, set_streaming false s,
     debug_line lvl DEBUG_INFO "Command: PAUSE streaming" ++ summary_of now s).
Proof.
  unfold handleCommands. msimpl. cbn [Ascii.eqb andb negb Bool.eqb].
  msimpl. rewrite debugPrint_eq. cbn [fst snd].
  rewrite printStreamingSummary_eq. cbn [fst snd].
  by rewrite !app_nil_r.
Qed.

Lemma handleCommands_ignored lvl cmd now s :
  (cmd = "S"%char → streaming s = true) → cmd ≠ "P"%char →
  handleCommands lvl (Some cmd) now s = (false, s, []).
Proof.
  intros HS HP. unfold handleCommands. msimpl.
  destruct (Ascii.eqb_spec cmd "S") as [->|_].
  - rewrite HS by done. cbn [negb andb Ascii.eqb Bool.eqb]. done.
  - cbn [andb]. by destruct (Ascii.eqb_spec cmd "P").
Qed.

(** ** [pollSensor] *)

Lemma pollSensor_idle lvl avail s :
  streaming s = false → pollSensor lvl avail s = (0, s, []).
Proof. intros Hoff. unfold pollSensor. msimpl. by rewrite Hoff. Qed.

Lemma pollSensor_streaming lvl avail s :
  streaming s = true → pollSensor lvl avail s = pollSensor_loop lvl avail 0 s.
Proof.
  intros Hon. unfold pollSensor. msimpl. rewrite Hon. cbn [negb].
  by destruct (pollSensor_loop lvl avail 0 s) as [[? ?] ?].
Qed.

Lemma pollSensor_loop_cons lvl ir red rest n s :
  pollSensor_loop lvl ((ir, red) :: rest) n s =
    let r1 := pollSensor_body lvl ir red s in
    let r2 := pollSensor_loop lvl rest (n + 1) (state_of r1) in
    (result r2, state_of r2, events r1 ++ events r2).
Proof. reflexivity. Qed.

Lemma poll_frame_trans s1 s2 s3 :
  poll_frame s1 s2 → poll_frame s2 s3 → poll_frame s1 s3.
Proof. unfold poll_frame. intros (?&?&?&?&?&?) (?&?&?&?&?&?). split_and!; congruence. Qed.

Lemma pollSensor_body_frame lvl ir red s :
  poll_frame s (state_of (pollSensor_body lvl ir red s)).
Proof.
  destruct (Z.lt_ge_cases (bufferCount s) BUFFER_SIZE) as [Hlt|Hge].
  - by rewrite pollSensor_body_accept.
  - by rewrite pollSensor_body_reject.
Qed.

Lemma pollSensor_loop_frame lvl avail n s :
  poll_frame s (state_of (pollSensor_loop lvl avail n s)).
Proof.
  revert n s. induction avail as [|[ir red] rest IH]; intros n s; [done|].
  rewrite pollSensor_loop_cons. cbn zeta. unfold state_of at 1. cbn [fst snd].
  eapply poll_frame_trans; [apply pollSensor_body_frame|apply IH].
Qed.

Lemma pollSensor_loop_wf lvl avail n s :
  buffer_wf s → buffer_wf (state_of (pollSensor_loop lvl avail n s)).
Proof.
  revert n s. induction avail as [|[ir red] rest IH]; intros n s Hwf; [done|].
  rewrite pollSensor_loop_cons. cbn zeta. unfold state_of at 1. cbn [fst snd].
  by apply IH, pollSensor_body_wf.
Qed.

Lemma pollSensor_loop_result lvl avail n s :
  result (pollSensor_loop lvl avail n s) = n + Z.of_nat (length avail).
Proof.
  revert n s. induction avail as [|[ir red] rest IH]; intros n s.
  - cbn. lia.
  - rewrite pollSensor_loop_cons. cbn zeta. unfold result at 1. cbn [fst snd].
    rewrite IH. cbn [length]. lia.
Qed.

Lemma pollSensor_wf lvl avail s :
  buffer_wf s → buffer_wf (state_of (pollSensor lvl avail s)).
Proof.
  intros Hwf. destruct (streaming s) eqn:Hon.
  - rewrite pollSensor_streaming by done. by apply pollSensor_loop_wf.
  - by rewrite pollSensor_idle.
Qed.

Lemma pollSensor_frame lvl avail s :
  poll_frame s (state_of (pollSensor lvl avail s)).
Proof.
  destruct (streaming s) eqn:Hon.
  - rewrite pollSensor_streaming by done. apply pollSensor_loop_frame.
  - by rewrite pollSensor_idle.
Qed.

(** ** [transmitChunk] *)

Lemma transmitChunk_fail lvl s :
  bufferCount s < CHUNK_SIZE → transmitChunk lvl s = (false, s, []).
Proof.
  intros Hlt. unfold transmitChunk. msimpl.
  by rewrite extractChunk_fail.
Qed.

Lemma transmitChunk_ok lvl s :
  buffer_wf s → CHUNK_SIZE ≤ bufferCount s →
  transmitChunk lvl s =
    let seq := wrap8 (seqNumber s + 1) in
    let irC := (ring_slice s CHUNK_SIZE).*1 in
    let redC := (ring_slice s CHUNK_SIZE).*2 in
    (true,
     mkState seq (irRingBuffer s) (redRingBuffer s) (writeIndex s)
       ((readIndex s + CHUNK_SIZE) mod BUFFER_SIZE) (bufferCount s - CHUNK_SIZE)
       irC redC (streamingStartTime s) (totalSamplesDuringStream s)
       (streaming s) (sensorConfigured s),
     [EvNotify (build_packet seq irC redC 0); EvDelay PACKET_PACING_MS;
      EvNotify (build_packet seq irC redC 1); EvDelay PACKET_PACING_MS]
     ++ (if DEBUG_INFO <=? lvl then [EvChunkSent (seq - 1)] else [])).
Proof.
  intros Hwf Hge. unfold transmitChunk. msimpl.
  rewrite extractChunk_ok by done. cbn [fst snd negb].
  change (seqZ 0 (CHUNK_SIZE ÷ BATCH_SIZE)) with [0; 1]. cbn [forM].
  msimpl. ssimpl. cbn [id app].
  destruct (DEBUG_INFO <=? lvl); by ssimpl.
Qed.

Lemma transmitChunk_wf lvl s :
  buffer_wf s → buffer_wf (state_of (transmitChunk lvl s)).
Proof.
  intros Hwf.
  destruct (Z.lt_ge_cases (bufferCount s) CHUNK_SIZE) as [Hlt|Hge].
  - by rewrite transmitChunk_fail.
  - pose proof (extractChunk_wf s Hwf) as Hwf'.
    rewrite extractChunk_ok in Hwf' by done.
    rewrite transmitChunk_ok by done. cbn zeta. unfold state_of in *.
    destruct Hwf'. by constructor.
Qed.

Lemma chunk_frames_val seq irC redC :
  chunk_frames seq irC redC = [build_packet seq irC redC 0; build_packet seq irC redC 1].
Proof. reflexivity. Qed.

(** ** Steps and runs *)

Lemma bind_unit_state {A} (m : M A) s :
  state_of ((m;; mret tt) s) = state_of (m s).
Proof. reflexivity. Qed.

Lemma bind_unit_events {A} (m : M A) s :
  events ((m;; mret tt) s) = events (m s).
Proof. unfold events. msimpl. apply app_nil_r. Qed.

Lemma run_cons_state lvl i rest s :
  state_of (run lvl (i :: rest) s) = state_of (run lvl rest (state_of (step lvl i s))).
Proof. reflexivity. Qed.

Lemma run_cons_events lvl i rest s :
  events (run lvl (i :: rest) s) =
  events (step lvl i s) ++ events (run lvl rest (state_of (step lvl i s))).
Proof. reflexivity. Qed.

Lemma run_app_state lvl l1 l2 s :
  state_of (run lvl (l1 ++ l2) s) = state_of (run lvl l2 (state_of (run lvl l1 s))).
Proof.
  revert s. induction l1 as [|i l1 IH]; intros s; [done|].
  cbn [app]. by rewrite !run_cons_state, IH.
Qed.

Lemma run_app_events lvl l1 l2 s :
  events (run lvl (l1 ++ l2) s) =
  events (run lvl l1 s) ++ events (run lvl l2 (state_of (run lvl l1 s))).
Proof.
  revert s. induction l1 as [|i l1 IH]; intros s; [done|].
  cbn [app]. by rewrite !run_cons_events, run_cons_state, IH, app_assoc.
Qed.

Lemma handleCommands_cases lvl written now s :
  handleCommands lvl written now s = (false, s, [])
  ∨ (written = Some "S"%char ∧ streaming s = false)
  ∨ written = Some "P"%char.
Proof.
  destruct written as [cmd|]; [|by left].
  destruct (decide (cmd = "P"%char)) as [->|HP]; [by right; right|].
  destruct (decide (cmd = "S"%char)) as [->|HS].
  - destruct (streaming s) eqn:Hon; [|by right; left].
    left. by apply handleCommands_ignored.
  - left. by apply handleCommands_ignored.
Qed.

Lemma boot_wf : buffer_wf boot.
Proof. by apply buffer_wfb_sound. Qed.

Lemma reset_wf ir red irC redC start cfg :
  length ir = Z.to_nat BUFFER_SIZE → length red = Z.to_nat BUFFER_SIZE →
  length irC = Z.to_nat CHUNK_SIZE → length redC = Z.to_nat CHUNK_SIZE →
  buffer_wf (mkState 0 ir red 0 0 0 irC redC start 0 false cfg).
Proof. intros. by constructor. Qed.

Lemma handleCommands_wf lvl written now s :
  buffer_wf s → buffer_wf (state_of (handleCommands lvl written now s)).
Proof.
  intros Hwf.
  destruct (handleCommands_cases lvl written now s) as [->|[[-> Hoff]| ->]]; [done|..].
  - rewrite handleCommands_start by done. destruct Hwf. by constructor.
  - rewrite handleCommands_pause. destruct Hwf. by constructor.
Qed.

Lemma step_wf lvl i s :
  buffer_wf s → buffer_wf (state_of (step lvl i s)).
Proof.
  intros Hwf. destruct i as [|written now|avail| | |now]; cbn [step].
  - rewrite resetStreamingState_eq. destruct Hwf. by apply reset_wf.
  - rewrite bind_unit_state. by apply handleCommands_wf.
  - rewrite bind_unit_state. by apply pollSensor_wf.
  - rewrite bind_unit_state. by apply transmitChunk_wf.
  - done.
  - rewrite handleDisconnect_eq. destruct Hwf. by apply reset_wf.
Qed.

Lemma run_wf lvl inputs s :
  buffer_wf s → buffer_wf (state_of (run lvl inputs s)).
Proof.
  revert s. induction inputs as [|i rest IH]; intros s Hwf; [done|].
  rewrite run_cons_state. by apply IH, step_wf.
Qed.

(** ** All-or-nothing extraction and bounded occupancy *)

(** C2: when fewer than [CHUNK_SIZE] samples are buffered, [extractChunk]
    returns [false] and the whole state (indices, count, ring and chunk
    arrays) is what it was; [transmitChunk] then sends nothing. *)
Theorem C2_extract_all_or_nothing lvl s :
  bufferCount s < CHUNK_SIZE →
  result (extractChunk s) = false
  ∧ state_of (extractChunk s) = s
  ∧ events (extractChunk s) = []
  ∧ transmitChunk lvl s = (false, s, []).
Proof.
  intros Hlt. rewrite extractChunk_fail, transmitChunk_fail by done. done.
Qed.

(** C3: in every state the pipeline reaches from power-up, the count is in
    [0, BUFFER_SIZE] and both indices are in [0, BUFFER_SIZE); when the
    count equals the capacity, the sample offered by [pollSensor] is
    dropped: nothing but the captured-sample counter changes. *)
Theorem C3_bounded_and_drop_on_full lvl inputs :
  let s := state_of (run lvl inputs boot) in
  (0 ≤ bufferCount s ≤ BUFFER_SIZE
   ∧ 0 ≤ writeIndex s < BUFFER_SIZE
   ∧ 0 ≤ readIndex s < BUFFER_SIZE)
  ∧ (bufferCount s = BUFFER_SIZE →
     ∀ ir red,
       state_of (pollSensor_body lvl ir red s) =
         set_totalSamplesDuringStream (wrap32 (totalSamplesDuringStream s + 1)) s
       ∧ contents (state_of (pollSensor_body lvl ir red s)) = contents s).
Proof.
  intros s. destruct (run_wf lvl inputs boot boot_wf) as [_ _ _ _ Hr Hw Hc _].
  fold s in Hr, Hw, Hc. split; [done|].
  intros Hfull ir red. rewrite pollSensor_body_reject by lia. done.
Qed.

(** ** The packet written byte by byte is the documented layout *)

Lemma aset_app_r (pre l : list Z) (j v : Z) :
  0 ≤ j → aset (pre ++ l) (Z.of_nat (length pre) + j) v = pre ++ aset l j v.
Proof.
  intros Hj. unfold aset.
  replace (Z.to_nat (Z.of_nat (length pre) + j)) with (length pre + Z.to_nat j)%nat by lia.
  apply insert_app_r.
Qed.

Lemma aget_app_r (pre l : list Z) (j : Z) :
  0 ≤ j → aget (pre ++ l) (Z.of_nat (length pre) + j) = aget l j.
Proof.
  intros Hj. unfold aget.
  replace (Z.to_nat (Z.of_nat (length pre) + j)) with (length pre + Z.to_nat j)%nat by lia.
  rewrite lookup_app_r by lia. do 2 f_equal. lia.
Qed.

Lemma drop_8 (l : list Z) (n : nat) :
  (n + 8 ≤ length l)%nat →
  ∃ b0 b1 b2 b3 b4 b5 b6 b7,
    drop n l = b0 :: b1 :: b2 :: b3 :: b4 :: b5 :: b6 :: b7 :: drop (n + 8) l.
Proof.
  intros Hlen.
  assert (∀ i, (i < 8)%nat → ∃ b, l !! (n + i)%nat = Some b) as Hb.
  { intros i Hi. apply lookup_lt_is_Some_2. lia. }
  destruct (Hb 0%nat) as [b0 H0]; [lia|]. destruct (Hb 1%nat) as [b1 H1]; [lia|].
  destruct (Hb 2%nat) as [b2 H2]; [lia|]. destruct (Hb 3%nat) as [b3 H3]; [lia|].
  destruct (Hb 4%nat) as [b4 H4]; [lia|]. destruct (Hb 5%nat) as [b5 H5]; [lia|].
  destruct (Hb 6%nat) as [b6 H6]; [lia|]. destruct (Hb 7%nat) as [b7 H7]; [lia|].
  exists b0, b1, b2, b3, b4, b5, b6, b7.
  rewrite Nat.add_0_r in H0.
  rewrite (drop_S _ _ _ H0).
  replace (S n) with (n + 1)%nat by lia. rewrite (drop_S _ _ _ H1).
  replace (S (n + 1)) with (n + 2)%nat by lia. rewrite (drop_S _ _ _ H2).
  replace (S (n + 2)) with (n + 3)%nat by lia. rewrite (drop_S _ _ _ H3).
  replace (S (n + 3)) with (n + 4)%nat by lia. rewrite (drop_S _ _ _ H4).
  replace (S (n + 4)) with (n + 5)%nat by lia. rewrite (drop_S _ _ _ H5).
  replace (S (n + 5)) with (n + 6)%nat by lia. rewrite (drop_S _ _ _ H6).
  replace (S (n + 6)) with (n + 7)%nat by lia. rewrite (drop_S _ _ _ H7).
  by replace (S (n + 7)) with (n + 8)%nat by lia.
Qed.

Lemma pack_sample_app irC redC p (pre : list Z) b0 b1 b2 b3 b4 b5 b6 b7 rest s :
  pack_sample irC redC p
    (pre ++ b0 :: b1 :: b2 :: b3 :: b4 :: b5 :: b6 :: b7 :: rest,
     Z.of_nat (length pre)) s =
  (pre ++ (be_bytes (aget irC (p * BATCH_SIZE + s))
           ++ be_bytes (aget redC (p * BATCH_SIZE + s))) ++ rest,
   Z.of_nat (length pre) + 8).
Proof.
  unfold pack_sample. cbn [fst snd].
  set (n := Z.of_nat (length pre)).
  rewrite <-(Z.add_0_r n) at 1. rewrite <-!Z.add_assoc.
  change (1 + 1) with 2. change (1 + 2) with 3. change (1 + 3) with 4.
  change (1 + 4) with 5. change (1 + 5) with 6. change (1 + 6) with 7.
  change (1 + 7) with 8.
  unfold n. rewrite !aset_app_r by lia. reflexivity.
Qed.

Lemma length_be_bytes x : length (be_bytes x) = 4%nat.
Proof. reflexivity. Qed.

Lemma length_frame_layout seq samples :
  length (frame_layout seq samples) = S (8 * length samples).
Proof.
  unfold frame_layout. cbn [length]. f_equal.
  induction samples as [|x samples IH]; [done|].
  cbn [mbind list_bind]. rewrite !length_app, !length_be_bytes.
  cbn [mbind] in IH. rewrite IH. cbn [length]. lia.
Qed.

Lemma frame_layout_snoc seq samples x :
  frame_layout seq (samples ++ [x]) =
  frame_layout seq samples ++ be_bytes x.1 ++ be_bytes x.2.
Proof.
  unfold frame_layout. rewrite bind_app. cbn [mbind list_bind].
  by rewrite app_nil_r.
Qed.

Lemma pack_fold init seq irC redC p (k : nat) :
  (k ≤ Z.to_nat BATCH_SIZE)%nat →
  length init = Z.to_nat PACKET_SIZE →
  foldl (pack_sample irC redC p) (aset init 0 seq, 1) (seqZ 0 (Z.of_nat k)) =
    (frame_layout seq (packet_samples irC redC p (Z.of_nat k))
       ++ drop (1 + 8 * k) init,
     1 + 8 * Z.of_nat k).
Proof.
  intros Hk Hlen. change (Z.to_nat BATCH_SIZE) with 16%nat in Hk.
  change (Z.to_nat PACKET_SIZE) with 129%nat in Hlen.
  induction k as [|k IH].
  - destruct init as [|b init]; [done|]. by rewrite seqZ_nil.
  - rewrite seqZ_S, foldl_snoc, IH by lia.
    unfold packet_samples. rewrite seqZ_S, fmap_app. cbn [fmap list_fmap].
    rewrite frame_layout_snoc. cbn [fst snd].
    fold (packet_samples irC redC p (Z.of_nat k)).
    set (pre := frame_layout seq (packet_samples irC redC p (Z.of_nat k))).
    assert (length pre = (1 + 8 * k)%nat) as Hpre.
    { unfold pre, packet_samples.
      rewrite length_frame_layout, length_fmap, length_seqZ. lia. }
    destruct (drop_8 init (1 + 8 * k)) as (b0&b1&b2&b3&b4&b5&b6&b7&Hd); [lia|].
    rewrite Hd.
    replace (1 + 8 * Z.of_nat k) with (Z.of_nat (length pre)) by lia.
    rewrite pack_sample_app, Z.add_0_l. f_equal; [|lia].
    rewrite <-!app_assoc. do 3 f_equal. f_equal. lia.
Qed.

(** The bytes [transmitChunk] writes into [packet] for batch [p], whatever
    the array held before, are the documented frame layout. *)
Lemma build_packet_layout init seq irC redC p :
  length init = Z.to_nat PACKET_SIZE →
  build_packet_from init seq irC redC p =
    frame_layout seq (packet_samples irC redC p BATCH_SIZE).
Proof.
  intros Hlen. unfold build_packet_from.
  pose proof (pack_fold init seq irC redC p (Z.to_nat BATCH_SIZE)) as H.
  change (Z.of_nat (Z.to_nat BATCH_SIZE)) with BATCH_SIZE in H.
  rewrite H by done. cbn [fst].
  rewrite drop_ge, app_nil_r; [done|].
  rewrite Hlen. by change (Z.to_nat PACKET_SIZE) with (1 + 8 * Z.to_nat BATCH_SIZE)%nat.
Qed.

Lemma packet_samples_slice (chunk : list (Z * Z)) (p : Z) (k : nat) :
  0 ≤ p → (Z.to_nat (p * BATCH_SIZE) + k ≤ length chunk)%nat →
  packet_samples (chunk.*1) (chunk.*2) p (Z.of_nat k) =
    take k (drop (Z.to_nat (p * BATCH_SIZE)) chunk).
Proof.
  intros Hp Hlen. unfold packet_samples. apply list_eq. intros i.
  rewrite list_lookup_fmap.
  destruct (decide (i < k)%nat) as [Hi|Hi].
  - rewrite lookup_seqZ_lt, lookup_take_lt, lookup_drop by lia. cbn [fmap option_fmap option_map].
    destruct (lookup_lt_is_Some_2 chunk (Z.to_nat (p * BATCH_SIZE) + i)) as [[a b] Hab]; [lia|].
    rewrite Hab. unfold aget. rewrite !list_lookup_fmap.
    replace (Z.to_nat (p * BATCH_SIZE + (0 + Z.of_nat i)))
      with (Z.to_nat (p * BATCH_SIZE) + i)%nat
      by (change BATCH_SIZE with 16; lia).
    by rewrite Hab.
  - by rewrite lookup_seqZ_ge, lookup_take_ge by lia.
Qed.

(** ** Decoding the documented layout *)

Lemma be_bytes_value x :
  uint32 x →
  Z.land (Z.shiftr x 24) 255 * 2 ^ 24 + Z.land (Z.shiftr x 16) 255 * 2 ^ 16
  + Z.land (Z.shiftr x 8) 255 * 2 ^ 8 + Z.land x 255 = x.
Proof.
  unfold uint32. intros Hx. change 255 with (Z.ones 8).
  rewrite !Z.land_ones, !Z.shiftr_div_pow2 by lia.
  change (2 ^ 32) with 4294967296 in Hx.
  change (2 ^ 24) with 16777216. change (2 ^ 16) with 65536.
  change (2 ^ 8) with 256. lia.
Qed.

Lemma be32_be_bytes (pre rest : list Z) (x i : Z) :
  uint32 x → i = Z.of_nat (length pre) →
  be32 (pre ++ be_bytes x ++ rest) i = x.
Proof.
  intros Hx ->. unfold be32.
  rewrite <-(Z.add_0_r (Z.of_nat (length pre))) at 1.
  rewrite !aget_app_r by lia. cbn -[Z.mul Z.add Z.pow Z.land Z.shiftr].
  by apply be_bytes_value.
Qed.

Lemma decode_layout (xs : list (Z * Z)) :
  ∀ (pre rest : list Z) (m : Z),
    Z.of_nat (length pre) = 8 * m + 1 →
    Forall uint32_pair xs →
    decode_sample (pre ++ (xs ≫= λ x, be_bytes x.1 ++ be_bytes x.2) ++ rest)
      <$> seqZ m (Z.of_nat (length xs)) = xs.
Proof.
  induction xs as [|[a b] xs IH]; intros pre rest m Hpre Hxs.
  - by rewrite seqZ_nil.
  - apply Forall_cons in Hxs as [[Ha Hb] Hxs]. cbn [fst snd] in Ha, Hb.
    rewrite seqZ_cons by (cbn [length]; lia).
    replace (Z.pred (Z.of_nat (length ((a, b) :: xs)))) with (Z.of_nat (length xs))
      by (cbn [length]; lia).
    cbn [mbind list_bind fmap list_fmap fst snd]. rewrite <-!app_assoc. f_equal.
    + unfold decode_sample. f_equal.
      * apply be32_be_bytes; [done|lia].
      * rewrite (app_assoc pre). apply be32_be_bytes; [done|].
        rewrite length_app, length_be_bytes. lia.
    + rewrite (app_assoc pre), (app_assoc (pre ++ _)).
      apply (IH _ rest (Z.succ m)); [|done].
      rewrite !length_app, !length_be_bytes. lia.
Qed.

Lemma decode_frame_layout seq (xs : list (Z * Z)) :
  length xs = Z.to_nat BATCH_SIZE → Forall uint32_pair xs →
  decode_frame (frame_layout seq xs) = xs.
Proof.
  intros Hlen Hxs. unfold decode_frame, frame_layout.
  pose proof (decode_layout xs [seq] [] 0 eq_refl Hxs) as H.
  rewrite app_nil_r, Hlen in H.
  by change (Z.of_nat (Z.to_nat BATCH_SIZE)) with BATCH_SIZE in H.
Qed.

(** ** Encoding then decoding a chunk *)

Lemma chunk_frames_layout seq (chunk : list (Z * Z)) :
  length chunk = Z.to_nat CHUNK_SIZE →
  chunk_frames seq (chunk.*1) (chunk.*2) =
    [frame_layout seq (take (Z.to_nat BATCH_SIZE) chunk);
     frame_layout seq (drop (Z.to_nat BATCH_SIZE) chunk)].
Proof.
  intros Hlen. change (Z.to_nat CHUNK_SIZE) with 32%nat in Hlen.
  rewrite chunk_frames_val. unfold build_packet.
  rewrite !build_packet_layout by (by rewrite length_replicate).
  change (packet_samples (chunk.*1) (chunk.*2) 0 BATCH_SIZE)
    with (packet_samples (chunk.*1) (chunk.*2) 0 (Z.of_nat 16)).
  change (packet_samples (chunk.*1) (chunk.*2) 1 BATCH_SIZE)
    with (packet_samples (chunk.*1) (chunk.*2) 1 (Z.of_nat 16)).
  rewrite (packet_samples_slice chunk 0 16), (packet_samples_slice chunk 1 16)
    by (change BATCH_SIZE with 16; lia).
  change (Z.to_nat (0 * BATCH_SIZE)) with 0%nat.
  change (Z.to_nat (1 * BATCH_SIZE)) with 16%nat.
  change (Z.to_nat BATCH_SIZE) with 16%nat.
  rewrite (take_ge (drop 16 chunk)) by (rewrite length_drop; lia).
  done.
Qed.

Lemma decode_chunk_frames seq (chunk : list (Z * Z)) :
  length chunk = Z.to_nat CHUNK_SIZE →
  Forall uint32_pair chunk →
  decode_frames (chunk_frames seq (chunk.*1) (chunk.*2)) = chunk.
Proof.
  intros Hlen Hxs. rewrite chunk_frames_layout by done.
  change (Z.to_nat CHUNK_SIZE) with 32%nat in Hlen.
  change (Z.to_nat BATCH_SIZE) with 16%nat.
  unfold decode_frames. cbn [mbind list_bind].
  rewrite !decode_frame_layout.
  - by rewrite app_nil_r, take_drop.
  - rewrite length_drop. change (Z.to_nat BATCH_SIZE) with 16%nat. lia.
  - by apply Forall_drop.
  - rewrite length_take. change (Z.to_nat BATCH_SIZE) with 16%nat. lia.
  - by apply Forall_take.
Qed.

(** C4: the [CHUNK_SIZE / BATCH_SIZE] frames [transmitChunk] builds from a
    chunk of [CHUNK_SIZE] 32-bit sample pairs each hold [PACKET_SIZE]
    bytes: the sequence byte, then IR and Red of each sample in order as 4
    big-endian bytes each; decoding them gives back the chunk, oldest
    sample first, every value exactly. *)
Theorem C4_encode_decode_roundtrip seq (chunk : list (Z * Z)) :
  length chunk = Z.to_nat CHUNK_SIZE →
  Forall uint32_pair chunk →
  let frames := chunk_frames seq (chunk.*1) (chunk.*2) in
  Z.of_nat (length frames) = CHUNK_SIZE ÷ BATCH_SIZE
  ∧ frames = [frame_layout seq (take (Z.to_nat BATCH_SIZE) chunk);
              frame_layout seq (drop (Z.to_nat BATCH_SIZE) chunk)]
  ∧ Forall (λ f, length f = Z.to_nat PACKET_SIZE ∧ f !! 0%nat = Some seq) frames
  ∧ decode_frames frames = chunk.
Proof.
  intros Hlen Hxs frames. unfold frames.
  split_and!; [|by apply chunk_frames_layout| |by apply decode_chunk_frames].
  - by rewrite chunk_frames_val.
  - rewrite chunk_frames_layout by done.
    change (Z.to_nat CHUNK_SIZE) with 32%nat in Hlen.
    change (Z.to_nat BATCH_SIZE) with 16%nat.
    assert (length (take 16 chunk) = 16%nat) as Ht by (rewrite length_take; lia).
    assert (length (drop 16 chunk) = 16%nat) as Hd by (rewrite length_drop; lia).
    repeat constructor; rewrite length_frame_layout; by (rewrite Ht || rewrite Hd).
Qed.

(** ** Sequence numbers *)

Lemma build_packet_head seq irC redC p :
  build_packet seq irC redC p !! 0%nat = Some seq.
Proof.
  unfold build_packet. by rewrite build_packet_layout by (by rewrite length_replicate).
Qed.

Lemma transmitChunk_notified lvl s :
  buffer_wf s → CHUNK_SIZE ≤ bufferCount s →
  notified (events (transmitChunk lvl s)) =
    chunk_frames (wrap8 (seqNumber s + 1))
      ((ring_slice s CHUNK_SIZE).*1) ((ring_slice s CHUNK_SIZE).*2).
Proof.
  intros Hwf Hge. rewrite transmitChunk_ok by done. cbn zeta.
  unfold events. cbn [snd]. by destruct (DEBUG_INFO <=? lvl).
Qed.

(** What a successful [transmitChunk] hands to the BLE stack decodes to the
    [CHUNK_SIZE] oldest buffered samples, oldest first. *)
Lemma transmitChunk_decodes lvl s :
  buffer_wf s → CHUNK_SIZE ≤ bufferCount s →
  Forall uint32_pair (contents s) →
  decode_frames (notified (events (transmitChunk lvl s)))
    = take (Z.to_nat CHUNK_SIZE) (contents s).
Proof.
  intros Hwf Hge Hxs. rewrite transmitChunk_notified by done.
  unfold contents in *. rewrite ring_slice_take by (rewrite CHUNK_SIZE_val in *; lia).
  apply decode_chunk_frames.
  - rewrite length_ring_slice. done.
  - rewrite <-(ring_slice_take s CHUNK_SIZE (bufferCount s))
      by (rewrite CHUNK_SIZE_val in *; lia).
    by apply Forall_take.
Qed.

Lemma handleCommands_seqNumber lvl written now s :
  seqNumber (state_of (handleCommands lvl written now s)) = seqNumber s.
Proof.
  destruct (handleCommands_cases lvl written now s) as [->|[[-> Hoff]| ->]]; [done|..].
  - by rewrite handleCommands_start.
  - by rewrite handleCommands_pause.
Qed.

Lemma frame_groups_seq lvl inputs :
  ∀ s, buffer_wf s → 0 ≤ seqNumber s < 256 →
    within_connection inputs = true →
    seq_bytes (frame_groups lvl inputs s) =
      (λ k : nat, replicate 2 (Some ((seqNumber s + Z.of_nat (S k)) mod 256)))
        <$> seq 0 (length (frame_groups lvl inputs s))
    ∧ seqNumber (state_of (run lvl inputs s)) =
        (seqNumber s + Z.of_nat (length (frame_groups lvl inputs s))) mod 256.
Proof.
  induction inputs as [|i rest IH]; intros s Hwf Hseq Hin.
  - cbn. split; [done|]. lia.
  - cbn [within_connection forallb] in Hin. apply andb_true_iff in Hin as [Hi Hin].
    rewrite run_cons_state. cbn [frame_groups].
    pose proof (step_wf lvl i s Hwf) as Hwf'.
    destruct i as [|written now|avail| | |now]; try done; cbn [step] in *.
    + rewrite bind_unit_state in *.
      destruct (IH _ Hwf') as [IH1 IH2]; [|done|];
        rewrite handleCommands_seqNumber in *; done.
    + rewrite bind_unit_state in *.
      destruct (pollSensor_frame lvl avail s) as (Hs & _).
      destruct (IH _ Hwf') as [IH1 IH2]; [|done|]; rewrite Hs in *; done.
    + rewrite bind_unit_state in *.
      destruct (Z.lt_ge_cases (bufferCount s) CHUNK_SIZE) as [Hlt|Hge].
      * rewrite transmitChunk_fail in * by done. unfold result, state_of in *.
        cbn [fst snd] in *. by apply IH.
      * rewrite transmitChunk_notified by done.
        rewrite transmitChunk_ok in * by done. cbn zeta in *.
        unfold result, state_of in *. cbn [fst snd] in *.
        set (s' := mkState _ _ _ _ _ _ _ _ _ _ _ _) in *.
        destruct (IH s' Hwf') as [IH1 IH2]; [unfold s', wrap8; ssimpl; lia|done|].
        unfold s' in IH1 at 2. unfold s' in IH2 at 2. ssimpl.
        cbn [length]. split.
        -- cbn [seq]. rewrite <-fmap_S_seq.
           unfold seq_bytes in *. cbn [fmap list_fmap].
           rewrite <-list_fmap_compose.
           rewrite chunk_frames_val. cbn [fmap list_fmap].
           rewrite !build_packet_head. cbn [replicate]. f_equal.
           rewrite IH1. apply list_fmap_ext. intros _ k _. cbn [compose replicate].
              assert ((wrap8 (seqNumber s + 1) + Z.of_nat (S k)) mod 256
                      = (seqNumber s + Z.of_nat (S (S k))) mod 256) as ->
                by (unfold wrap8; lia).
              done.
        -- rewrite IH2. unfold wrap8. lia.
    + by apply IH.
Qed.

Lemma connect_state lvl pre :
  let s := state_of (run lvl (pre ++ [InConnect]) boot) in
  buffer_wf s ∧ seqNumber s = 0 ∧ streaming s = false
  ∧ writeIndex s = 0 ∧ readIndex s = 0 ∧ bufferCount s = 0
  ∧ totalSamplesDuringStream s = 0.
Proof.
  intros s. split; [apply run_wf, boot_wf|].
  unfold s. rewrite run_app_state. cbn [run step]. msimpl.
  by rewrite resetStreamingState_eq.
Qed.

(** C5: after a connection is accepted, the [k]-th chunk transmitted
    (counting from 1) goes out as [CHUNK_SIZE / BATCH_SIZE] frames that all
    carry the sequence byte [k mod 256], and the counter ends at the number
    of chunks sent modulo 256: it advances once per chunk, not per frame,
    and wraps from 255 to 0. *)
Theorem C5_sequence_bytes lvl pre inputs :
  within_connection inputs = true →
  let s := state_of (run lvl (pre ++ [InConnect]) boot) in
  let groups := frame_groups lvl inputs s in
  seq_bytes groups =
    (λ k : nat, replicate (Z.to_nat (CHUNK_SIZE ÷ BATCH_SIZE))
                  (Some (Z.of_nat (S k) mod 256)))
      <$> seq 0 (length groups)
  ∧ seqNumber (state_of (run lvl inputs s)) = Z.of_nat (length groups) mod 256.
Proof.
  intros Hin s groups.
  destruct (connect_state lvl pre) as (Hwf & Hseq & _). fold s in Hwf, Hseq.
  destruct (frame_groups_seq lvl inputs s Hwf) as [H1 H2]; [lia|done|].
  fold groups in H1, H2. rewrite Hseq in H1, H2. split.
  - rewrite H1. apply list_fmap_ext. intros _ k _.
    by rewrite Z.add_0_l.
  - by rewrite H2, Z.add_0_l.
Qed.

(** C10: the chunk figure of the session summary is the sequence counter,
    that is the number of chunks transmitted since the connection was
    accepted, modulo 256; no command, a start command included, changes
    that counter. *)
Theorem C10_chunks_sent_counts_connection lvl pre inputs now :
  within_connection inputs = true →
  let s0 := state_of (run lvl (pre ++ [InConnect]) boot) in
  let s := state_of (run lvl inputs s0) in
  let sent := Z.of_nat (length (frame_groups lvl inputs s0)) in
  events (printStreamingSummary now s) =
    (if totalSamplesDuringStream s =? 0 then []
     else [EvSummary (wrap32 (now - streamingStartTime s))
             (totalSamplesDuringStream s) (sent mod 256)])
  ∧ (∀ written now',
       seqNumber (state_of (handleCommands lvl written now' s)) = sent mod 256).
Proof.
  intros Hin s0 s sent.
  destruct (connect_state lvl pre) as (Hwf & Hseq & _). fold s0 in Hwf, Hseq.
  destruct (frame_groups_seq lvl inputs s0 Hwf) as [_ H2]; [lia|done|].
  fold s sent in H2. rewrite Hseq, Z.add_0_l in H2. split.
  - rewrite printStreamingSummary_eq. unfold events, summary_of. cbn [snd].
    by rewrite H2.
  - intros written now'. by rewrite handleCommands_seqNumber.
Qed.

(** ** Nothing leaks into a new connection *)

Lemma contents_same_buffer s s' :
  irRingBuffer s' = irRingBuffer s → redRingBuffer s' = redRingBuffer s →
  readIndex s' = readIndex s → bufferCount s' = bufferCount s →
  contents s' = contents s.
Proof. unfold contents, ring_slice. by intros -> -> -> ->. Qed.

Lemma obs_body lvl ir red s1 s2 :
  obs_eq s1 s2 → streaming s1 = true →
  events (pollSensor_body lvl ir red s1) = events (pollSensor_body lvl ir red s2)
  ∧ obs_eq (state_of (pollSensor_body lvl ir red s1))
           (state_of (pollSensor_body lvl ir red s2)).
Proof.
  intros [W1 W2 Hseq Hcount Htotal Hstr Hcfg Hcont Hstart] Hon.
  pose proof (pollSensor_body_wf lvl ir red s1 W1) as W1'.
  pose proof (pollSensor_body_wf lvl ir red s2 W2) as W2'.
  destruct Hstart as [Hstart|[Hoff _]]; [|congruence].
  destruct (Z.lt_ge_cases (bufferCount s1) BUFFER_SIZE) as [Hlt|Hge].
  - pose proof (pollSensor_body_contents lvl ir red s1 W1 Hlt) as C1.
    pose proof (pollSensor_body_contents lvl ir red s2 W2 ltac:(lia)) as C2.
    rewrite (pollSensor_body_accept lvl ir red s1),
      (pollSensor_body_accept lvl ir red s2) in * by lia.
    unfold state_of, events in *. cbn [fst snd] in *.
    split; [done|]. constructor; ssimpl; try done; try congruence.
    by left.
  - rewrite (pollSensor_body_reject lvl ir red s1),
      (pollSensor_body_reject lvl ir red s2) in * by lia.
    unfold state_of, events in *. cbn [fst snd] in *.
    split; [done|]. constructor; ssimpl; try done; try congruence.
    by left.
Qed.

Lemma obs_loop lvl avail :
  ∀ n s1 s2, obs_eq s1 s2 → streaming s1 = true →
    events (pollSensor_loop lvl avail n s1) = events (pollSensor_loop lvl avail n s2)
    ∧ obs_eq (state_of (pollSensor_loop lvl avail n s1))
             (state_of (pollSensor_loop lvl avail n s2)).
Proof.
  induction avail as [|[ir red] rest IH]; intros n s1 s2 Hobs Hon; [done|].
  rewrite !pollSensor_loop_cons. cbn zeta.
  destruct (obs_body lvl ir red s1 s2 Hobs Hon) as [He Hobs'].
  destruct (pollSensor_body_frame lvl ir red s1) as (_ & Hstr & _).
  destruct (IH (n + 1) _ _ Hobs') as [He' Hobs'']; [congruence|].
  unfold events at 1 4. unfold state_of at 1 3. cbn [fst snd].
  by rewrite He, He'.
Qed.

Lemma obs_poll lvl avail s1 s2 :
  obs_eq s1 s2 →
  events (pollSensor lvl avail s1) = events (pollSensor lvl avail s2)
  ∧ obs_eq (state_of (pollSensor lvl avail s1)) (state_of (pollSensor lvl avail s2)).
Proof.
  intros Hobs. pose proof (oe_streaming _ _ Hobs) as Hstr.
  destruct (streaming s1) eqn:Hon.
  - rewrite !pollSensor_streaming by done. by apply obs_loop.
  - by rewrite !pollSensor_idle.
Qed.

Lemma summary_of_obs now s1 s2 :
  obs_eq s1 s2 → summary_of now s1 = summary_of now s2.
Proof.
  intros [W1 W2 Hseq Hcount Htotal Hstr Hcfg Hcont Hstart]. unfold summary_of.
  rewrite <-Htotal, <-Hseq.
  destruct (Z.eqb_spec (totalSamplesDuringStream s1) 0) as [|Hne]; [done|].
  destruct Hstart as [->|[_ ?]]; done.
Qed.

Lemma obs_command lvl written now s1 s2 :
  obs_eq s1 s2 →
  events (handleCommands lvl written now s1) = events (handleCommands lvl written now s2)
  ∧ obs_eq (state_of (handleCommands lvl written now s1))
           (state_of (handleCommands lvl written now s2)).
Proof.
  intros Hobs. pose proof (summary_of_obs now _ _ Hobs) as Hsum.
  destruct Hobs as [W1 W2 Hseq Hcount Htotal Hstr Hcfg Hcont Hstart].
  assert (obs_eq s1 s2) as Hobs by (by constructor).
  destruct written as [cmd|]; [|done].
  destruct (decide (cmd = "P"%char)) as [->|HP].
  - rewrite !handleCommands_pause. unfold events, state_of. cbn [fst snd].
    split; [by rewrite Hsum|].
    destruct W1, W2.
    constructor; ssimpl; try done; [by constructor..|].
    destruct Hstart as [?|[_ ?]]; [by left|by right].
  - destruct (decide (cmd = "S"%char)) as [->|HS].
    + destruct (streaming s1) eqn:Hon.
      * by rewrite !handleCommands_ignored by (done || congruence).
      * rewrite !handleCommands_start by congruence.
        unfold events, state_of. cbn [fst snd].
        split; [by rewrite Hcfg|].
        destruct W1, W2.
        constructor; ssimpl; try done; [by constructor..|by left].
    + by rewrite !handleCommands_ignored by done.
Qed.

Lemma transmitChunk_contents lvl s :
  buffer_wf s → CHUNK_SIZE ≤ bufferCount s →
  contents (state_of (transmitChunk lvl s)) = drop (Z.to_nat CHUNK_SIZE) (contents s).
Proof.
  intros Hwf Hge. rewrite <-extractChunk_contents by done.
  rewrite transmitChunk_ok, extractChunk_ok by done. by apply contents_same_buffer.
Qed.

Lemma ring_slice_contents s :
  buffer_wf s → CHUNK_SIZE ≤ bufferCount s →
  ring_slice s CHUNK_SIZE = take (Z.to_nat CHUNK_SIZE) (contents s).
Proof.
  intros Hwf Hge. unfold contents. rewrite ring_slice_take; [done|].
  rewrite CHUNK_SIZE_val in *. lia.
Qed.

Lemma obs_transmit lvl s1 s2 :
  obs_eq s1 s2 →
  events (transmitChunk lvl s1) = events (transmitChunk lvl s2)
  ∧ obs_eq (state_of (transmitChunk lvl s1)) (state_of (transmitChunk lvl s2)).
Proof.
  intros Hobs.
  destruct Hobs as [W1 W2 Hseq Hcount Htotal Hstr Hcfg Hcont Hstart].
  assert (obs_eq s1 s2) as Hobs by (by constructor).
  pose proof (transmitChunk_wf lvl s1 W1) as W1'.
  pose proof (transmitChunk_wf lvl s2 W2) as W2'.
  destruct (Z.lt_ge_cases (bufferCount s1) CHUNK_SIZE) as [Hlt|Hge].
  - by rewrite !transmitChunk_fail by lia.
  - pose proof (transmitChunk_contents lvl s1 W1 Hge) as C1.
    pose proof (transmitChunk_contents lvl s2 W2 ltac:(lia)) as C2.
    rewrite (transmitChunk_ok lvl s1), (transmitChunk_ok lvl s2) in * by (done || lia).
    cbn zeta in *. unfold events, state_of in *. cbn [fst snd] in *.
    rewrite (ring_slice_contents s1), (ring_slice_contents s2) in * by (done || lia).
    split.
    + by rewrite Hseq, Hcont.
    + constructor; ssimpl; try done; try congruence.
Qed.

Lemma obs_reset (s1 s2 : State) cfg1 cfg2 :
  buffer_wf s1 → buffer_wf s2 → cfg1 = cfg2 →
  obs_eq
    (mkState 0 (irRingBuffer s1) (redRingBuffer s1) 0 0 0 (irChunk s1) (redChunk s1)
       (streamingStartTime s1) 0 false cfg1)
    (mkState 0 (irRingBuffer s2) (redRingBuffer s2) 0 0 0 (irChunk s2) (redChunk s2)
       (streamingStartTime s2) 0 false cfg2).
Proof.
  intros [] [] ->.
  constructor; try done; try (by apply reset_wf); by right.
Qed.

Lemma obs_step lvl i s1 s2 :
  obs_eq s1 s2 →
  events (step lvl i s1) = events (step lvl i s2)
  ∧ obs_eq (state_of (step lvl i s1)) (state_of (step lvl i s2)).
Proof.
  intros Hobs. destruct i as [|written now|avail| | |now]; cbn [step].
  - rewrite !resetStreamingState_eq. unfold events, state_of. cbn [fst snd].
    split; [done|]. destruct Hobs. by apply obs_reset.
  - rewrite !bind_unit_state, !bind_unit_events. by apply obs_command.
  - rewrite !bind_unit_state, !bind_unit_events. by apply obs_poll.
  - rewrite !bind_unit_state, !bind_unit_events. by apply obs_transmit.
  - done.
  - rewrite !handleDisconnect_eq. unfold events, state_of. cbn [fst snd].
    split.
    + rewrite (summary_of_obs now s1 s2 Hobs). by destruct Hobs as [_ _ _ _ _ _ -> _ _].
    + destruct Hobs. by apply obs_reset.
Qed.

Lemma obs_run lvl inputs :
  ∀ s1 s2, obs_eq s1 s2 →
    events (run lvl inputs s1) = events (run lvl inputs s2)
    ∧ obs_eq (state_of (run lvl inputs s1)) (state_of (run lvl inputs s2)).
Proof.
  induction inputs as [|i rest IH]; intros s1 s2 Hobs; [done|].
  rewrite !run_cons_events, !run_cons_state.
  destruct (obs_step lvl i s1 s2 Hobs) as [He Hobs'].
  destruct (IH _ _ Hobs') as [He' Hobs'']. by rewrite He, He'.
Qed.

(** ** [loop] and its trace *)

Lemma loop_while_state lvl passes s :
  state_of (loop_while lvl passes s) = state_of (run lvl (passes ≫= pass_inputs) s).
Proof.
  revert s. induction passes as [|p rest IH]; intros s; [done|].
  cbn [mbind list_bind]. rewrite run_app_state. cbn [loop_while].
  unfold state_of at 1. msimpl. unfold state_of in IH. rewrite IH. reflexivity.
Qed.

Lemma loop_while_events lvl passes s :
  events (loop_while lvl passes s) = events (run lvl (passes ≫= pass_inputs) s).
Proof.
  revert s. induction passes as [|p rest IH]; intros s; [done|].
  cbn [mbind list_bind]. rewrite run_app_events. cbn [loop_while].
  unfold events at 1. msimpl.
  pose proof (loop_while_state lvl rest) as Hst. unfold state_of, events in *.
  rewrite IH. unfold loop_pass, pass_inputs. cbn [run step]. msimpl.
  by rewrite !app_nil_r, <-!app_assoc.
Qed.

(** One connection served by [loop] is the run of its trace. *)
Lemma loop_run lvl passes now s :
  state_of (loop lvl passes now s) = state_of (run lvl (loop_inputs passes now) s)
  ∧ events (loop lvl passes now s) = events (run lvl (loop_inputs passes now) s).
Proof.
  unfold loop_inputs. rewrite run_cons_state, run_cons_events.
  rewrite run_app_state, run_app_events.
  rewrite <-loop_while_state, <-loop_while_events.
  unfold loop. cbn [run step]. unfold state_of, events. msimpl.
  by rewrite !app_nil_r.
Qed.

Lemma obs_connect lvl s1 s2 :
  buffer_wf s1 → buffer_wf s2 → sensorConfigured s1 = sensorConfigured s2 →
  events (resetStreamingState lvl s1) = events (resetStreamingState lvl s2)
  ∧ obs_eq (state_of (resetStreamingState lvl s1))
           (state_of (resetStreamingState lvl s2)).
Proof.
  intros Hwf1 Hwf2 Hcfg. rewrite !resetStreamingState_eq.
  unfold events, state_of. cbn [fst snd]. split; [done|]. by apply obs_reset.
Qed.

Lemma obs_loop_events lvl passes now s1 s2 :
  buffer_wf s1 → buffer_wf s2 → sensorConfigured s1 = sensorConfigured s2 →
  events (loop lvl passes now s1) = events (loop lvl passes now s2).
Proof.
  intros Hwf1 Hwf2 Hcfg.
  destruct (loop_run lvl passes now s1) as [_ ->].
  destruct (loop_run lvl passes now s2) as [_ ->].
  unfold loop_inputs. rewrite !run_cons_events. cbn [step].
  destruct (obs_connect lvl s1 s2 Hwf1 Hwf2 Hcfg) as [-> Hobs].
  f_equal. by apply obs_run.
Qed.

Lemma disconnect_state lvl history now :
  let s := state_of (run lvl (history ++ [InDisconnect now]) boot) in
  buffer_wf s ∧ sensorConfigured s = false.
Proof.
  intros s. split; [apply run_wf, boot_wf|].
  unfold s. rewrite run_app_state. cbn [run step]. msimpl.
  by rewrite handleDisconnect_eq.
Qed.

(** C9, as the code has it: accepting a connection, the reset at the top
    of [loop], puts the session in Idle and zeroes the sequence counter,
    both buffer indices, the count and the captured-sample counter,
    whatever the state was.  It leaves the session start time, the sensor
    flag and the arrays as they were; none of that can be observed: from
    any two states with the same sensor flag, everything [loop], or any
    later sequence of calls, prints, sends or asks of the sensor is the
    same.  In particular, after any history ended by a disconnect the
    firmware behaves as on the first connection after power-up. *)
Theorem C9_new_connection_is_clean lvl s1 s2 :
  buffer_wf s1 → buffer_wf s2 →
  sensorConfigured s1 = sensorConfigured s2 →
  (∀ s0,
     let s := state_of (resetStreamingState lvl s0) in
     streaming s = false ∧ seqNumber s = 0
     ∧ writeIndex s = 0 ∧ readIndex s = 0 ∧ bufferCount s = 0
     ∧ totalSamplesDuringStream s = 0 ∧ contents s = [])
  ∧ (∀ s0,
       let s := state_of (resetStreamingState lvl s0) in
       streamingStartTime s = streamingStartTime s0
       ∧ sensorConfigured s = sensorConfigured s0
       ∧ irRingBuffer s = irRingBuffer s0 ∧ redRingBuffer s = redRingBuffer s0
       ∧ irChunk s = irChunk s0 ∧ redChunk s = redChunk s0)
  ∧ (∀ inputs,
       events (run lvl inputs (state_of (resetStreamingState lvl s1)))
       = events (run lvl inputs (state_of (resetStreamingState lvl s2))))
  ∧ (∀ passes now,
       events (loop lvl passes now s1) = events (loop lvl passes now s2))
  ∧ (∀ history now inputs,
       let left_over := state_of (run lvl (history ++ [InDisconnect now]) boot) in
       events (run lvl inputs (state_of (resetStreamingState lvl left_over)))
       = events (run lvl inputs (state_of (resetStreamingState lvl boot))))
  ∧ (∀ history now passes now',
       let left_over := state_of (run lvl (history ++ [InDisconnect now]) boot) in
       events (loop lvl passes now' left_over) = events (loop lvl passes now' boot)).
Proof.
  intros Hwf1 Hwf2 Hcfg. split_and!.
  - intros s0 s. unfold s. rewrite resetStreamingState_eq.
    unfold state_of. cbn [fst snd]. by split_and!.
  - intros s0 s. unfold s. rewrite resetStreamingState_eq.
    unfold state_of. cbn [fst snd]. by split_and!.
  - intros inputs. apply obs_run. by apply obs_connect.
  - intros passes now. by apply obs_loop_events.
  - intros history now inputs left_over.
    destruct (disconnect_state lvl history now) as [Hwf Hoff]. fold left_over in Hwf, Hoff.
    apply obs_run, obs_connect; [done|apply boot_wf|done].
  - intros history now passes now' left_over.
    destruct (disconnect_state lvl history now) as [Hwf Hoff]. fold left_over in Hwf, Hoff.
    apply obs_loop_events; [done|apply boot_wf|done].
Qed.

(** ** The session state machine *)

Lemma summaries_app evs1 evs2 :
  summaries (evs1 ++ evs2) = summaries evs1 ++ summaries evs2.
Proof.
  induction evs1 as [|e evs1 IH]; [done|].
  destruct e; cbn [app summaries]; by rewrite IH.
Qed.

Lemma summaries_debug_line lvl level msg : summaries (debug_line lvl level msg) = [].
Proof. unfold debug_line. by destruct (level <=? lvl). Qed.

Lemma summaries_summary_of now s : summaries (summary_of now s) = summary_of now s.
Proof. unfold summary_of. by destruct (totalSamplesDuringStream s =? 0). Qed.

Lemma set_streaming_same s : streaming s = false → set_streaming false s = s.
Proof. destruct s. cbn. by intros ->. Qed.

(** C6 (the code departs from it): in the Idle state reached by
    [paused_session], three samples have been counted; the start command
    at 2000 ms enters Streaming and records the start time, but the counter
    still reads 3, and the pause at 3000 ms reports those 3 samples for a
    session of 1000 ms in which none was captured. *)
Theorem C6_start_keeps_sample_counter :
  let s := state_of (run DEBUG_LEVEL paused_session boot) in
  let r := handleCommands DEBUG_LEVEL (Some "S"%char) 2000 s in
  streaming s = false
  ∧ totalSamplesDuringStream s = 3
  ∧ result r = true
  ∧ streaming (state_of r) = true
  ∧ streamingStartTime (state_of r) = 2000
  ∧ totalSamplesDuringStream (state_of r) = 3
  ∧ events (handleCommands DEBUG_LEVEL (Some "P"%char) 3000 (state_of r))
    = [EvSummary 1000 3 0].
Proof. vm_compute. by repeat split. Qed.

(** C7, as the code has it: in an Idle state an unrecognised command byte
    changes nothing and prints nothing, and so does a start command in a
    Streaming state; both calls return [false].  A pause command in an
    Idle state leaves every state variable as it was, but it runs the pause
    branch: the call returns [true], and the summary is printed again
    exactly when the captured-sample counter is not zero. *)
Theorem C7_commands_without_transition lvl s now :
  streaming s = false →
  (∀ cmd, cmd ≠ "S"%char → cmd ≠ "P"%char →
     handleCommands lvl (Some cmd) now s = (false, s, []))
  ∧ (∀ s', streaming s' = true →
       handleCommands lvl (Some "S"%char) now s' = (false, s', []))
  ∧ state_of (handleCommands lvl (Some "P"%char) now s) = s
  ∧ events (handleCommands lvl (Some "P"%char) now s)
    = debug_line lvl DEBUG_INFO "Command: PAUSE streaming" ++ summary_of now s
  ∧ summaries (events (handleCommands lvl (Some "P"%char) now s))
    = (if totalSamplesDuringStream s =? 0 then []
       else [EvSummary (wrap32 (now - streamingStartTime s))
               (totalSamplesDuringStream s) (seqNumber s)])
  ∧ result (handleCommands lvl (Some "P"%char) now s) = true
  ∧ handleCommands lvl (Some "P"%char) now s
    = (true, s,
       debug_line lvl DEBUG_INFO "Command: PAUSE streaming" ++ summary_of now s).
Proof.
  intros Hoff. split_and!.
  - intros cmd HS HP. by apply handleCommands_ignored.
  - intros s' Hon. by apply handleCommands_ignored.
  - rewrite handleCommands_pause. by apply set_streaming_same.
  - by rewrite handleCommands_pause.
  - rewrite handleCommands_pause. unfold events. cbn [snd].
    by rewrite summaries_app, summaries_debug_line, summaries_summary_of.
  - by rewrite handleCommands_pause.
  - by rewrite handleCommands_pause, set_streaming_same.
Qed.

(** C8, as the code has it: a pause command in a Streaming state is
    handled, leaves Idle as the only change of state, and stops
    acquisition: [pollSensor] reads nothing any more, and [transmitChunk]
    sends nothing when fewer than [CHUNK_SIZE] samples are buffered.  At
    every verbosity the summary (elapsed time, captured samples, chunk
    figure) is printed exactly when the captured-sample counter is not
    zero. *)
Theorem C8_pause_while_streaming lvl s now :
  streaming s = true →
  let r := handleCommands lvl (Some "P"%char) now s in
  result r = true
  ∧ state_of r = set_streaming false s
  ∧ (∀ avail, pollSensor lvl avail (state_of r) = (0, state_of r, []))
  ∧ (bufferCount s < CHUNK_SIZE →
     transmitChunk lvl (state_of r) = (false, state_of r, []))
  ∧ summaries (events r)
    = (if totalSamplesDuringStream s =? 0 then []
       else [EvSummary (wrap32 (now - streamingStartTime s))
               (totalSamplesDuringStream s) (seqNumber s)]).
Proof.
  intros Hon r. unfold r. rewrite handleCommands_pause.
  unfold result, state_of, events. cbn [fst snd]. split_and!.
  - done.
  - done.
  - intros avail. by apply pollSensor_idle.
  - intros Hlt. by apply transmitChunk_fail.
  - by rewrite summaries_app, summaries_debug_line, summaries_summary_of.
Qed.

(** ** The theorems on concrete sessions *)

Lemma ramp_uint32 n : n ≤ 1000 → Forall uint32_pair (ramp n).
Proof.
  intros Hn. unfold ramp. apply Forall_fmap, Forall_seqZ. intros k Hk.
  unfold compose, uint32_pair, uint32. cbn [fst snd].
  change (2 ^ 32) with 4294967296. lia.
Qed.

Lemma C1_fifo_order_witness :
  buffer_wf boot
  ∧ below_capacity DEBUG_LEVEL demo_ops boot = true
  ∧ concat (run_ops DEBUG_LEVEL demo_ops boot).2
      ++ contents (run_ops DEBUG_LEVEL demo_ops boot).1
    = contents boot ++ pushed demo_ops
  ∧ Forall (λ c, length c = Z.to_nat CHUNK_SIZE) (run_ops DEBUG_LEVEL demo_ops boot).2
  ∧ buffer_wf (run_ops DEBUG_LEVEL demo_ops boot).1
  ∧ (run_ops DEBUG_LEVEL demo_ops boot).2
    = [ramp 32; drop 32 (ramp 40) ++ take 24 (ramp 30)]
  ∧ contents (run_ops DEBUG_LEVEL demo_ops boot).1 = drop 24 (ramp 30).
Proof.
  split; [apply buffer_wfb_sound; vm_compute; reflexivity|].
  split; [vm_compute; reflexivity|].
  destruct (C1_fifo_order DEBUG_LEVEL demo_ops boot)
    as (H1 & H2 & H3 & H4 & H5 & _).
  - apply buffer_wfb_sound. vm_compute. reflexivity.
  - vm_compute. reflexivity.
  - split; [exact H1|]. split; [exact H2|]. split; [exact H3|]. split.
    + rewrite H4. vm_compute. reflexivity.
    + rewrite H5. vm_compute. reflexivity.
Defined.

Lemma C2_extract_all_or_nothing_witness :
  bufferCount boot < CHUNK_SIZE
  ∧ result (extractChunk boot) = false
  ∧ state_of (extractChunk boot) = boot
  ∧ events (extractChunk boot) = []
  ∧ transmitChunk DEBUG_LEVEL boot = (false, boot, []).
Proof.
  split; [vm_compute; reflexivity|].
  apply (C2_extract_all_or_nothing DEBUG_LEVEL boot). vm_compute. reflexivity.
Defined.

Lemma C3_bounded_and_drop_on_full_witness :
  bufferCount (state_of (run DEBUG_LEVEL filling_session boot)) = BUFFER_SIZE
  ∧ state_of (pollSensor_body DEBUG_LEVEL 7 9
                (state_of (run DEBUG_LEVEL filling_session boot)))
    = set_totalSamplesDuringStream
        (wrap32 (totalSamplesDuringStream
                   (state_of (run DEBUG_LEVEL filling_session boot)) + 1))
        (state_of (run DEBUG_LEVEL filling_session boot))
  ∧ contents (state_of (pollSensor_body DEBUG_LEVEL 7 9
                          (state_of (run DEBUG_LEVEL filling_session boot))))
    = contents (state_of (run DEBUG_LEVEL filling_session boot)).
Proof.
  split; [vm_compute; reflexivity|].
  apply (C3_bounded_and_drop_on_full DEBUG_LEVEL filling_session).
  vm_compute. reflexivity.
Defined.

Lemma C4_encode_decode_roundtrip_witness :
  length (ramp 32) = Z.to_nat CHUNK_SIZE
  ∧ Forall uint32_pair (ramp 32)
  ∧ Z.of_nat (length (chunk_frames 7 ((ramp 32).*1) ((ramp 32).*2)))
    = CHUNK_SIZE ÷ BATCH_SIZE
  ∧ chunk_frames 7 ((ramp 32).*1) ((ramp 32).*2)
    = [frame_layout 7 (take (Z.to_nat BATCH_SIZE) (ramp 32));
       frame_layout 7 (drop (Z.to_nat BATCH_SIZE) (ramp 32))]
  ∧ Forall (λ f, length f = Z.to_nat PACKET_SIZE ∧ f !! 0%nat = Some 7)
      (chunk_frames 7 ((ramp 32).*1) ((ramp 32).*2))
  ∧ decode_frames (chunk_frames 7 ((ramp 32).*1) ((ramp 32).*2)) = ramp 32.
Proof.
  split; [vm_compute; reflexivity|].
  split; [apply ramp_uint32; lia|].
  apply (C4_encode_decode_roundtrip 7 (ramp 32)).
  - vm_compute. reflexivity.
  - apply ramp_uint32. lia.
Defined.

Lemma C5_sequence_bytes_witness :
  within_connection two_chunks = true
  ∧ seq_bytes (frame_groups DEBUG_LEVEL two_chunks
                 (state_of (run DEBUG_LEVEL ([] ++ [InConnect]) boot)))
    = [[Some 1; Some 1]; [Some 2; Some 2]]
  ∧ seqNumber (state_of (run DEBUG_LEVEL two_chunks
                           (state_of (run DEBUG_LEVEL ([] ++ [InConnect]) boot))))
    = 2.
Proof.
  split; [vm_compute; reflexivity|].
  pose proof (C5_sequence_bytes DEBUG_LEVEL [] two_chunks) as H.
  cbv zeta in H. destruct H as [H1 H2]; [vm_compute; reflexivity|].
  split.
  - rewrite H1. vm_compute. reflexivity.
  - rewrite H2. vm_compute. reflexivity.
Defined.

Lemma C7_commands_without_transition_witness :
  streaming (state_of (run DEBUG_LEVEL paused_session boot)) = false
  ∧ state_of (handleCommands DEBUG_LEVEL (Some "P"%char) 2000
                (state_of (run DEBUG_LEVEL paused_session boot)))
    = state_of (run DEBUG_LEVEL paused_session boot)
  ∧ handleCommands DEBUG_LEVEL (Some "x"%char) 2000
      (state_of (run DEBUG_LEVEL paused_session boot))
    = (false, state_of (run DEBUG_LEVEL paused_session boot), [])
  ∧ result (handleCommands DEBUG_LEVEL (Some "P"%char) 2000
              (state_of (run DEBUG_LEVEL paused_session boot)))
    = true.
Proof.
  split; [vm_compute; reflexivity|].
  destruct (C7_commands_without_transition DEBUG_LEVEL
              (state_of (run DEBUG_LEVEL paused_session boot)) 2000)
    as (Hother & _ & Hstate & _ & _ & Hres & _); [vm_compute; reflexivity|].
  split; [exact Hstate|]. split; [apply Hother; discriminate|exact Hres].
Defined.

Lemma C8_pause_while_streaming_witness :
  streaming (state_of (run DEBUG_LEVEL two_chunks boot)) = true
  ∧ state_of (handleCommands DEBUG_LEVEL (Some "P"%char) 1000
                (state_of (run DEBUG_LEVEL two_chunks boot)))
    = set_streaming false (state_of (run DEBUG_LEVEL two_chunks boot))
  ∧ summaries (events (handleCommands DEBUG_LEVEL (Some "P"%char) 1000
                         (state_of (run DEBUG_LEVEL two_chunks boot))))
    = [EvSummary 1000 64 2].
Proof.
  split; [vm_compute; reflexivity|].
  destruct (C8_pause_while_streaming DEBUG_LEVEL
              (state_of (run DEBUG_LEVEL two_chunks boot)) 1000)
    as (_ & Hstate & _ & _ & Hsum); [vm_compute; reflexivity|].
  split; [exact Hstate|]. rewrite Hsum. vm_compute. reflexivity.
Defined.

Lemma C10_chunks_sent_counts_connection_witness :
  within_connection two_sessions = true
  ∧ events (printStreamingSummary 3000
              (state_of (run DEBUG_LEVEL two_sessions
                           (state_of (run DEBUG_LEVEL ([] ++ [InConnect]) boot)))))
    = [EvSummary 1000 32 1].
Proof.
  split; [vm_compute; reflexivity|].
  pose proof (C10_chunks_sent_counts_connection DEBUG_LEVEL [] two_sessions 3000) as H.
  cbv zeta in H. destruct H as [H _]; [vm_compute; reflexivity|].
  rewrite H. vm_compute. reflexivity.
Defined.

Lemma C9_new_connection_is_clean_witness :
  buffer_wf left_over_a ∧ buffer_wf left_over_b
  ∧ sensorConfigured left_over_a = sensorConfigured left_over_b
  ∧ seqNumber left_over_a ≠ seqNumber left_over_b
  ∧ events (loop DEBUG_LEVEL demo_passes 400 left_over_a)
    = events (loop DEBUG_LEVEL demo_passes 400 left_over_b).
Proof.
  assert (buffer_wf left_over_a) as Ha
    by (apply buffer_wfb_sound; vm_compute; reflexivity).
  assert (buffer_wf left_over_b) as Hb
    by (apply buffer_wfb_sound; vm_compute; reflexivity).
  assert (sensorConfigured left_over_a = sensorConfigured left_over_b) as Hc
    by (vm_compute; reflexivity).
  split; [exact Ha|]. split; [exact Hb|]. split; [exact Hc|].
  split; [vm_compute; discriminate|].
  destruct (C9_new_connection_is_clean DEBUG_LEVEL left_over_a left_over_b Ha Hb Hc)
    as (_ & _ & _ & Hloop & _).
  apply Hloop.
Defined.

(** The session start time recorded in one connection is still there once
    the next connection has been accepted, and so are the samples left in
    the ring array: the connect-time reset clears neither. *)
Lemma C9_start_time_survives_connect :
  let s := state_of (run DEBUG_LEVEL reconnect_session boot) in
  streamingStartTime s = 5000
  ∧ streamingStartTime s ≠ 0
  ∧ aget (irRingBuffer s) 0 = 100000.
Proof. vm_compute. repeat split. discriminate. Qed.

(** In the Idle state reached by [paused_session] a pause command prints
    the session summary once more. *)
Lemma C7_pause_while_idle_prints_summary :
  streaming (state_of (run DEBUG_LEVEL paused_session boot)) = false
  ∧ events (handleCommands DEBUG_LEVEL (Some "P"%char) 2000
              (state_of (run DEBUG_LEVEL paused_session boot)))
    = [EvSummary 2000 3 0]
  ∧ events (handleCommands DEBUG_LEVEL (Some "P"%char) 2000
              (state_of (run DEBUG_LEVEL paused_session boot)))
    ≠ [].
Proof. vm_compute. by repeat split. Qed.

(** A session paused before any sample was captured prints no summary, at
    the verbosity of the build and at the highest one. *)
Lemma C8_pause_without_samples_prints_nothing :
  streaming (state_of (run DEBUG_LEVEL fresh_session boot)) = true
  ∧ events (handleCommands DEBUG_LEVEL (Some "P"%char) 1000
              (state_of (run DEBUG_LEVEL fresh_session boot)))
    = []
  ∧ summaries (events (handleCommands DEBUG_VERBOSE (Some "P"%char) 1000
                         (state_of (run DEBUG_VERBOSE fresh_session boot))))
    = [].
Proof. vm_compute. by repeat split. Qed.

(** [transmitChunk] does not look at [streaming]: with a full chunk still
    buffered at the pause, the next call sends it. *)
Example transmit_after_pause :
  let s := state_of (run DEBUG_LEVEL paused_with_backlog boot) in
  streaming s = false
  ∧ bufferCount s = 32
  ∧ result (transmitChunk DEBUG_LEVEL s) = true
  ∧ length (notified (events (transmitChunk DEBUG_LEVEL s))) = 2%nat.
Proof. vm_compute. by repeat split. Qed.

(** The second session of [two_sessions] sends no chunk, and its summary
    still reports the chunk of the first one. *)
Example chunk_figure_spans_sessions :
  let s0 := state_of (run DEBUG_LEVEL [InConnect] boot) in
  frame_groups DEBUG_LEVEL [InCommand (Some "S"%char) 2000]
    (state_of (run DEBUG_LEVEL (take 4 two_sessions) s0)) = []
  ∧ events (handleCommands DEBUG_LEVEL (Some "P"%char) 3000
              (state_of (run DEBUG_LEVEL two_sessions s0)))
    = [EvSummary 1000 32 1].
Proof. vm_compute. by repeat split. Qed.

(** Acquiring 1000 samples, 32 per pass, and sending a chunk on every pass
    leaves [1000 mod CHUNK_SIZE] samples buffered. *)
Example thousand_samples :
  let passes := replicate 31 (mkPass None 0 (ramp 32)) ++ [mkPass None 0 (ramp 8)] in
  let s := state_of (run DEBUG_LEVEL
                       (InConnect :: InCommand (Some "S"%char) 0
                        :: (passes ≫= pass_inputs)) boot) in
  totalSamplesDuringStream s = 1000
  ∧ bufferCount s = Z.rem 1000 CHUNK_SIZE
  ∧ seqNumber s = 31.
Proof. vm_compute. by repeat split. Qed.

(** * Further properties of the firmware *)

(** ** [pollSensor]: accounting, overflow and its report *)

Lemma wrap32_idem x : wrap32 (wrap32 x) = wrap32 x.
Proof. unfold wrap32. change (2 ^ 32) with 4294967296. lia. Qed.

Lemma wrap32_add_l x y : wrap32 (wrap32 x + y) = wrap32 (x + y).
Proof. unfold wrap32. change (2 ^ 32) with 4294967296. lia. Qed.

Lemma wrap32_small x : uint32 x → wrap32 x = x.
Proof. unfold wrap32, uint32. change (2 ^ 32) with 4294967296. lia. Qed.

Lemma state_of_triple {A} (a : A) s evs : state_of (a, s, evs) = s.
Proof. reflexivity. Qed.

Lemma events_triple {A} (a : A) s evs : events (a, s, evs) = evs.
Proof. reflexivity. Qed.

Lemma result_triple {A} (a : A) s evs : result (a, s, evs) = a.
Proof. reflexivity. Qed.

Lemma pollSensor_loop_effect lvl avail :
  ∀ n s, buffer_wf s →
    let r := pollSensor_loop lvl avail n s in
    let len := Z.of_nat (length avail) in
    bufferCount (state_of r) = Z.min (bufferCount s + len) BUFFER_SIZE
    ∧ wrap32 (totalSamplesDuringStream (state_of r))
      = wrap32 (totalSamplesDuringStream s + len)
    ∧ contents (state_of r)
      = contents s ++ take (Z.to_nat (BUFFER_SIZE - bufferCount s)) avail
    ∧ events r
      = mjoin (replicate (Z.to_nat (dropped (bufferCount s) len))
                 (debug_line lvl DEBUG_INFO "BUFFER OVERFLOW")).
Proof.
  induction avail as [|[ir red] rest IH]; intros n s Hwf.
  - cbn zeta. unfold state_of, events, dropped. cbn [pollSensor_loop length].
    destruct Hwf as [_ _ _ _ _ _ Hc _]. rewrite BUFFER_SIZE_val in *.
    msimpl. split_and!.
    + lia.
    + by rewrite Z.add_0_r.
    + by rewrite take_nil, app_nil_r.
    + by replace (Z.to_nat _) with 0%nat by lia.
  - cbn zeta. rewrite pollSensor_loop_cons. cbn zeta.
    rewrite !state_of_triple, events_triple.
    pose proof (pollSensor_body_wf lvl ir red s Hwf) as Hwf'.
    destruct (IH (n + 1) _ Hwf') as (Hc & Ht & Hq & He). clear IH.
    rewrite Hc, Ht, Hq, He. clear Hc Ht Hq He.
    pose proof (wf_count s Hwf) as Hrange.
    destruct (Z.lt_ge_cases (bufferCount s) BUFFER_SIZE) as [Hlt|Hge].
    + rewrite pollSensor_body_contents by done.
      rewrite pollSensor_body_accept by done.
      unfold state_of, events, dropped. cbn [fst snd length]. ssimpl.
      rewrite BUFFER_SIZE_val in *. split_and!.
      * lia.
      * rewrite wrap32_add_l. f_equal. lia.
      * replace (Z.to_nat (1000 - bufferCount s))
          with (S (Z.to_nat (1000 - (bufferCount s + 1)))) by lia.
        cbn [take]. by rewrite <-app_assoc.
      * cbn [app]. do 2 f_equal. lia.
    + rewrite pollSensor_body_reject by done.
      unfold state_of, events, dropped. cbn [fst snd length]. ssimpl.
      rewrite BUFFER_SIZE_val in *. split_and!.
      * lia.
      * rewrite wrap32_add_l. f_equal. lia.
      * replace (Z.to_nat (1000 - bufferCount s)) with 0%nat by lia.
        by rewrite !take_0.
      * replace (Z.to_nat (Z.max 0 (bufferCount s + Z.of_nat (S (length rest)) - 1000)))
          with (S (Z.to_nat (Z.max 0 (bufferCount s + Z.of_nat (length rest) - 1000))))
          by lia.
        reflexivity.
Qed.

Lemma pollSensor_loop_total_range lvl avail :
  ∀ n s, uint32 (totalSamplesDuringStream s) →
    uint32 (totalSamplesDuringStream (state_of (pollSensor_loop lvl avail n s))).
Proof.
  induction avail as [|[ir red] rest IH]; intros n s Hs; [done|].
  rewrite pollSensor_loop_cons. cbn zeta. rewrite state_of_triple. apply IH.
  assert (uint32 (wrap32 (totalSamplesDuringStream s + 1))) as Hw.
  { unfold uint32, wrap32. change (2 ^ 32) with 4294967296. lia. }
  destruct (Z.lt_ge_cases (bufferCount s) BUFFER_SIZE) as [Hlt|Hge].
  - by rewrite pollSensor_body_accept.
  - by rewrite pollSensor_body_reject.
Qed.

(** X1: [pollSensor] returns the number of samples it read and adds it to the
    captured-sample counter (32-bit wrap-around), whether or not they fitted
    in the buffer; outside Streaming it reads nothing and changes nothing. *)
Theorem pollSensor_counts_every_sample lvl avail s :
  buffer_wf s → uint32 (totalSamplesDuringStream s) →
  let r := pollSensor lvl avail s in
  if streaming s
  then result r = Z.of_nat (length avail)
       ∧ totalSamplesDuringStream (state_of r)
         = wrap32 (totalSamplesDuringStream s + Z.of_nat (length avail))
  else r = (0, s, []).
Proof.
  intros Hwf Ht r. unfold r. destruct (streaming s) eqn:Hon.
  - rewrite pollSensor_streaming by done. split.
    + rewrite pollSensor_loop_result. lia.
    + destruct (pollSensor_loop_effect lvl avail 0 s Hwf) as (_ & Htot & _).
      rewrite <-Htot. symmetry. apply wrap32_small.
      by apply pollSensor_loop_total_range.
  - by apply pollSensor_idle.
Qed.

Lemma pollSensor_streaming_effect lvl avail s :
  buffer_wf s → streaming s = true →
  contents (state_of (pollSensor lvl avail s))
  = contents s ++ take (Z.to_nat (BUFFER_SIZE - bufferCount s)) avail
  ∧ bufferCount (state_of (pollSensor lvl avail s))
    = Z.min (bufferCount s + Z.of_nat (length avail)) BUFFER_SIZE
  ∧ wrap32 (totalSamplesDuringStream (state_of (pollSensor lvl avail s)))
    = wrap32 (totalSamplesDuringStream s + Z.of_nat (length avail))
  ∧ events (pollSensor lvl avail s)
    = mjoin (replicate
               (Z.to_nat (dropped (bufferCount s) (Z.of_nat (length avail))))
               (debug_line lvl DEBUG_INFO "BUFFER OVERFLOW")).
Proof.
  intros Hwf Hon. rewrite pollSensor_streaming by done.
  destruct (pollSensor_loop_effect lvl avail 0 s Hwf) as (Hc & Ht & Hq & He).
  by split_and!.
Qed.

Lemma mjoin_replicate_debug_line lvl msg k :
  mjoin (replicate k (debug_line lvl DEBUG_INFO msg))
  = if DEBUG_INFO <=? lvl then replicate k (EvDebug msg) else [].
Proof.
  unfold debug_line. destruct (DEBUG_INFO <=? lvl).
  - induction k as [|k IH]; [done|]. cbn [replicate]. by rewrite <-IH.
  - induction k as [|k IH]; [done|]. by cbn [replicate].
Qed.

(** X2: While Streaming, [pollSensor] appends the offered samples to the queue
    of unread samples until the buffer is full and drops the rest: the
    samples already buffered stay in front and in order, the newest samples
    are the ones lost, and the count saturates at [BUFFER_SIZE]. *)
Theorem pollSensor_keeps_oldest lvl avail s :
  buffer_wf s → streaming s = true →
  let s' := state_of (pollSensor lvl avail s) in
  contents s' = contents s ++ take (Z.to_nat (BUFFER_SIZE - bufferCount s)) avail
  ∧ bufferCount s' = Z.min (bufferCount s + Z.of_nat (length avail)) BUFFER_SIZE
  ∧ buffer_wf s'.
Proof.
  intros Hwf Hon s'. unfold s'.
  destruct (pollSensor_streaming_effect lvl avail s Hwf Hon) as (Hq & Hc & _).
  split_and!; [done|done|by apply pollSensor_wf].
Qed.

(** X3: [pollSensor] reports each dropped sample, and nothing else: one
    "BUFFER OVERFLOW" line per sample that found the buffer full when the
    verbosity is at least [DEBUG_INFO], and no output at all below. *)
Theorem pollSensor_overflow_report lvl avail s :
  buffer_wf s → streaming s = true →
  events (pollSensor lvl avail s)
  = if DEBUG_INFO <=? lvl
    then replicate
           (Z.to_nat (dropped (bufferCount s) (Z.of_nat (length avail))))
           (EvDebug "BUFFER OVERFLOW")
    else [].
Proof.
  intros Hwf Hon.
  destruct (pollSensor_streaming_effect lvl avail s Hwf Hon) as (_ & _ & _ & He).
  by rewrite He, mjoin_replicate_debug_line.
Qed.

(** ** [extractChunk] and [transmitChunk]: one successful call *)

(** X4: A successful [extractChunk] copies the [CHUNK_SIZE] oldest unread
    samples into the chunk arrays and removes exactly those: the read
    index advances by [CHUNK_SIZE] modulo [BUFFER_SIZE], the count drops by
    [CHUNK_SIZE], and the ring arrays, the write index and every session
    variable are untouched; nothing is printed or sent. *)
Theorem extractChunk_takes_oldest s :
  buffer_wf s → CHUNK_SIZE ≤ bufferCount s →
  let r := extractChunk s in
  let s' := state_of r in
  result r = true ∧ events r = []
  ∧ chunk_pairs s' = take (Z.to_nat CHUNK_SIZE) (contents s)
  ∧ contents s' = drop (Z.to_nat CHUNK_SIZE) (contents s)
  ∧ readIndex s' = (readIndex s + CHUNK_SIZE) mod BUFFER_SIZE
  ∧ bufferCount s' = bufferCount s - CHUNK_SIZE
  ∧ writeIndex s' = writeIndex s
  ∧ irRingBuffer s' = irRingBuffer s ∧ redRingBuffer s' = redRingBuffer s
  ∧ seqNumber s' = seqNumber s
  ∧ totalSamplesDuringStream s' = totalSamplesDuringStream s
  ∧ streaming s' = streaming s.
Proof.
  intros Hwf Hge r s'. unfold s', r.
  pose proof (extractChunk_chunk s Hwf Hge) as Hchunk.
  pose proof (extractChunk_contents s Hwf Hge) as Hcont.
  rewrite extractChunk_ok in * by done. by split_and!.
Qed.

Lemma land_255_uint8 x : uint8 (Z.land x 255).
Proof.
  unfold uint8. change 255 with (Z.ones 8). rewrite Z.land_ones by lia.
  change (2 ^ 8) with 256. lia.
Qed.

Lemma frame_layout_uint8 seq samples :
  uint8 seq → Forall uint8 (frame_layout seq samples).
Proof.
  intros Hseq. unfold frame_layout. constructor; [done|].
  induction samples as [|x samples IH]; [constructor|].
  cbn [mbind list_bind]. rewrite !Forall_app. split; [|exact IH].
  split; repeat constructor; apply land_255_uint8.
Qed.

Lemma build_packet_wellformed seq irC redC p :
  uint8 seq →
  length (build_packet seq irC redC p) = Z.to_nat PACKET_SIZE
  ∧ Forall uint8 (build_packet seq irC redC p).
Proof.
  intros Hseq. unfold build_packet.
  rewrite build_packet_layout by (by rewrite length_replicate). split.
  - rewrite length_frame_layout. unfold packet_samples.
    by rewrite length_fmap, length_seqZ.
  - by apply frame_layout_uint8.
Qed.

Lemma wrap8_uint8 x : uint8 (wrap8 x).
Proof. unfold uint8, wrap8. lia. Qed.

(** X5: The local [packet] array of [transmitChunk] is never initialised, and
    it does not matter: all [PACKET_SIZE] bytes are written before the
    frame is sent, so the frame is the same whatever the array held. *)
Theorem packet_fully_overwritten init1 init2 seq irC redC p :
  length init1 = Z.to_nat PACKET_SIZE →
  length init2 = Z.to_nat PACKET_SIZE →
  build_packet_from init1 seq irC redC p = build_packet_from init2 seq irC redC p.
Proof. intros H1 H2. by rewrite !build_packet_layout. Qed.

(** X6: A successful [transmitChunk] hands the BLE stack exactly
    [CHUNK_SIZE / BATCH_SIZE] notifications, each followed by the pacing
    delay of [PACKET_PACING_MS]; every frame has [PACKET_SIZE] bytes, all of
    them in 0..255, whatever values the buffer held.  The only other output
    is the diagnostic line at verbosity [DEBUG_INFO] and above, which
    prints the counter minus one: the previous value, but -1 instead of 255
    when the counter has just wrapped to 0. *)
Theorem transmitChunk_paces_frames lvl s :
  buffer_wf s → CHUNK_SIZE ≤ bufferCount s →
  ∃ p0 p1,
    events (transmitChunk lvl s)
    = [EvNotify p0; EvDelay PACKET_PACING_MS; EvNotify p1; EvDelay PACKET_PACING_MS]
      ++ (if DEBUG_INFO <=? lvl
          then [EvChunkSent (if seqNumber s mod 256 =? 255 then -1
                             else seqNumber s mod 256)]
          else [])
    ∧ length p0 = Z.to_nat PACKET_SIZE ∧ length p1 = Z.to_nat PACKET_SIZE
    ∧ Forall uint8 p0 ∧ Forall uint8 p1.
Proof.
  intros Hwf Hge. rewrite transmitChunk_ok by done. cbn zeta.
  rewrite events_triple.
  set (seq := wrap8 (seqNumber s + 1)).
  destruct (build_packet_wellformed seq ((ring_slice s CHUNK_SIZE).*1)
              ((ring_slice s CHUNK_SIZE).*2) 0 (wrap8_uint8 _)) as [L0 B0].
  destruct (build_packet_wellformed seq ((ring_slice s CHUNK_SIZE).*1)
              ((ring_slice s CHUNK_SIZE).*2) 1 (wrap8_uint8 _)) as [L1 B1].
  eexists _, _. split_and!; [|exact L0|exact L1|exact B0|exact B1].
  do 4 f_equal. destruct (DEBUG_INFO <=? lvl); [|done].
  do 2 f_equal. unfold seq, wrap8.
  destruct (Z.eqb_spec (seqNumber s mod 256) 255); lia.
Qed.

(** X7: What a successful [transmitChunk] sends decodes, on the receiving
    side, to the [CHUNK_SIZE] oldest unread samples in the order they were
    produced, and exactly those samples leave the buffer. *)
Theorem transmitChunk_delivers_oldest lvl s :
  buffer_wf s → CHUNK_SIZE ≤ bufferCount s →
  Forall uint32_pair (contents s) →
  decode_frames (notified (events (transmitChunk lvl s)))
  = take (Z.to_nat CHUNK_SIZE) (contents s)
  ∧ contents (state_of (transmitChunk lvl s))
    = drop (Z.to_nat CHUNK_SIZE) (contents s).
Proof.
  intros Hwf Hge Hxs. split.
  - by apply transmitChunk_decodes.
  - by apply transmitChunk_contents.
Qed.

(** ** [handleCommands]: the whole transition function *)

Lemma handleCommands_frame lvl written now s :
  command_frame s (state_of (handleCommands lvl written now s)).
Proof.
  destruct (handleCommands_cases lvl written now s) as [->|[[-> Hoff]| ->]].
  - by repeat split.
  - rewrite handleCommands_start by done. by repeat split.
  - rewrite handleCommands_pause. by repeat split.
Qed.

(** X8: For every command byte and every state: the session is Streaming
    afterwards exactly when the byte is 'S', or it was Streaming and the
    byte is not 'P'; the call reports a handled command for 'S' in Idle and
    for every 'P'; the sensor is configured, and the start time recorded,
    exactly by 'S' in Idle; and no command touches the sequence counter,
    the captured-sample counter, the ring buffer, its indices and count, or
    the chunk arrays, or sends anything over BLE. *)
Theorem handleCommands_transition lvl cmd now s :
  let r := handleCommands lvl (Some cmd) now s in
  let starts := Ascii.eqb cmd "S" && negb (streaming s) in
  streaming (state_of r)
  = (Ascii.eqb cmd "S" || (streaming s && negb (Ascii.eqb cmd "P")))
  ∧ result r = (starts || Ascii.eqb cmd "P")
  ∧ sensorConfigured (state_of r) = (sensorConfigured s || starts)
  ∧ streamingStartTime (state_of r) = (if starts then now else streamingStartTime s)
  ∧ count_ev is_setup (events r) = b2n (starts && negb (sensorConfigured s))
  ∧ command_frame s (state_of r)
  ∧ notified (events r) = [].
Proof.
  intros r starts. unfold r, starts.
  pose proof (handleCommands_frame lvl (Some cmd) now s) as Hframe.
  destruct (decide (cmd = "P"%char)) as [->|HP].
  - rewrite handleCommands_pause in *.
    rewrite state_of_triple, result_triple, events_triple in *.
    cbn [Ascii.eqb Bool.eqb andb orb negb set_streaming streaming
         sensorConfigured streamingStartTime].
    rewrite andb_false_r, orb_false_r. split_and!; try done.
    + unfold debug_line, summary_of.
      by destruct (DEBUG_INFO <=? lvl), (totalSamplesDuringStream s =? 0).
    + unfold debug_line, summary_of.
      by destruct (DEBUG_INFO <=? lvl), (totalSamplesDuringStream s =? 0).
  - assert (Ascii.eqb cmd "P" = false) as EP by (by apply Ascii.eqb_neq).
    rewrite EP. destruct (decide (cmd = "S"%char)) as [->|HS].
    + destruct (streaming s) eqn:Hon.
      * rewrite handleCommands_ignored in * by (done || congruence).
        rewrite state_of_triple, result_triple, events_triple.
        cbn [Ascii.eqb Bool.eqb andb orb negb]. rewrite Hon, orb_false_r.
        by split_and!.
      * rewrite handleCommands_start in * by done.
        rewrite state_of_triple, result_triple, events_triple in *.
        cbn [Ascii.eqb Bool.eqb andb orb negb streaming sensorConfigured
             streamingStartTime].
        rewrite orb_true_r. split_and!; try done.
        -- unfold debug_line.
           by destruct (DEBUG_INFO <=? lvl), (sensorConfigured s).
        -- unfold debug_line.
           by destruct (DEBUG_INFO <=? lvl), (sensorConfigured s).
    + assert (Ascii.eqb cmd "S" = false) as ES by (by apply Ascii.eqb_neq).
      rewrite ES. rewrite handleCommands_ignored in * by done.
      rewrite state_of_triple, result_triple, events_triple.
      cbn [andb orb negb]. rewrite andb_true_r, orb_false_r.
      by split_and!.
Qed.

(** ** Invariants of whole runs *)

Lemma count_ev_app p evs1 evs2 :
  count_ev p (evs1 ++ evs2) = (count_ev p evs1 + count_ev p evs2)%nat.
Proof.
  induction evs1 as [|e evs1 IH]; [done|]. cbn [app count_ev]. rewrite IH. lia.
Qed.

Lemma count_ev_replicate p k e :
  count_ev p (replicate k e) = (k * b2n (p e))%nat.
Proof.
  induction k as [|k IH]; [done|]. cbn [replicate count_ev]. rewrite IH.
  unfold b2n. destruct (p e); lia.
Qed.

Lemma count_ev_poll p lvl avail s :
  buffer_wf s → (∀ msg, p (EvDebug msg) = false) →
  count_ev p (events (pollSensor lvl avail s)) = 0%nat.
Proof.
  intros Hwf Hp. destruct (streaming s) eqn:Hon.
  - destruct (pollSensor_streaming_effect lvl avail s Hwf Hon) as (_ & _ & _ & ->).
    rewrite mjoin_replicate_debug_line.
    destruct (DEBUG_INFO <=? lvl); [|done].
    rewrite count_ev_replicate, Hp. unfold b2n. lia.
  - by rewrite pollSensor_idle.
Qed.

(** Case analysis over one step, with the equation of the procedure it
    calls. *)
Ltac step_cases lvl i s Hwf :=
  destruct i as [|written now|avail| | |now]; cbn [step];
  [ rewrite ?resetStreamingState_eq
  | rewrite ?bind_unit_state, ?bind_unit_events;
    destruct (handleCommands_cases lvl written now s) as [->|[[-> ?]| ->]];
    [ | rewrite ?handleCommands_start by done | rewrite ?handleCommands_pause ]
  | rewrite ?bind_unit_state, ?bind_unit_events
  | rewrite ?bind_unit_state, ?bind_unit_events;
    destruct (Z.lt_ge_cases (bufferCount s) CHUNK_SIZE);
    [ rewrite ?transmitChunk_fail by done
    | rewrite ?(transmitChunk_ok lvl s) by done; cbn zeta ]
  |
  | rewrite ?handleDisconnect_eq ];
  rewrite ?state_of_triple, ?events_triple.

Ltac count_events :=
  unfold debug_line, summary_of;
  repeat match goal with
         | |- context [if ?b then _ else _] =>
             lazymatch b with
             | true => fail
             | false => fail
             | _ => destruct b; cbv beta iota
             end
         end;
  try reflexivity.

Lemma step_sensor_balance lvl i s :
  buffer_wf s →
  (count_ev is_setup (events (step lvl i s)) + b2n (sensorConfigured s)
   = count_ev is_shutdown (events (step lvl i s))
     + b2n (sensorConfigured (state_of (step lvl i s))))%nat
  ∧ count_ev is_clear (events (step lvl i s))
    = count_ev is_setup (events (step lvl i s)).
Proof.
  intros Hwf. step_cases lvl i s Hwf; ssimpl.
  - by count_events.
  - done.
  - by count_events.
  - by count_events.
  - rewrite !count_ev_poll by done.
    by destruct (pollSensor_frame lvl avail s) as (_ & _ & -> & _).
  - done.
  - by count_events.
  - done.
  - by count_events.
Qed.

Lemma run_sensor_balance lvl inputs :
  ∀ s, buffer_wf s →
    (count_ev is_setup (events (run lvl inputs s)) + b2n (sensorConfigured s)
     = count_ev is_shutdown (events (run lvl inputs s))
       + b2n (sensorConfigured (state_of (run lvl inputs s))))%nat
    ∧ count_ev is_clear (events (run lvl inputs s))
      = count_ev is_setup (events (run lvl inputs s)).
Proof.
  induction inputs as [|i rest IH]; intros s Hwf; [done|].
  rewrite run_cons_events, run_cons_state, !count_ev_app.
  destruct (step_sensor_balance lvl i s Hwf) as [H1 H2].
  destruct (IH _ (step_wf lvl i s Hwf)) as [H3 H4]. lia.
Qed.

(** X9: Over any run from power-up the sensor is configured and shut down in
    strict alternation: the number of [setup] calls is the number of
    [shutDown] calls, plus one when the sensor is currently configured; it
    is never configured twice in a row nor shut down while off, and every
    [setup] comes with one [clearFIFO]. *)
Theorem sensor_power_alternates lvl inputs :
  let r := run lvl inputs boot in
  count_ev is_setup (events r)
  = (count_ev is_shutdown (events r) + b2n (sensorConfigured (state_of r)))%nat
  ∧ count_ev is_clear (events r) = count_ev is_setup (events r).
Proof.
  intros r. destruct (run_sensor_balance lvl inputs boot boot_wf) as [H1 H2].
  fold r in H1, H2. cbn [boot sensorConfigured b2n] in H1. split; [lia|done].
Qed.

Lemma step_within_connection lvl i s :
  buffer_wf s → within_connection [i] = true →
  count_ev is_shutdown (events (step lvl i s)) = 0%nat
  ∧ count_ev is_advertise (events (step lvl i s)) = 0%nat.
Proof.
  intros Hwf Hin. step_cases lvl i s Hwf; try done; ssimpl.
  - by count_events.
  - by count_events.
  - by rewrite !count_ev_poll.
  - by count_events.
Qed.

Lemma connection_sensor_calls lvl inputs s :
  buffer_wf s → within_connection inputs = true →
  let r := run lvl inputs s in
  count_ev is_setup (events r)
  = b2n (negb (sensorConfigured s) && sensorConfigured (state_of r))
  ∧ (sensorConfigured s = true → sensorConfigured (state_of r) = true)
  ∧ count_ev is_shutdown (events r) = 0%nat
  ∧ count_ev is_advertise (events r) = 0%nat.
Proof.
  intros Hwf Hin r.
  assert (count_ev is_shutdown (events r) = 0%nat
          ∧ count_ev is_advertise (events r) = 0%nat) as [Hsh Hadv].
  { unfold r. clear r. revert s Hwf.
    induction inputs as [|i rest IH]; intros s Hwf; [done|].
    cbn [within_connection forallb] in Hin. apply andb_true_iff in Hin as [Hi Hin].
    rewrite run_cons_events, !count_ev_app.
    destruct (step_within_connection lvl i s Hwf) as [-> ->].
    { cbn [within_connection forallb]. by rewrite Hi. }
    by destruct (IH Hin _ (step_wf lvl i s Hwf)) as [-> ->]. }
  destruct (run_sensor_balance lvl inputs s Hwf) as [Hbal _]. fold r in Hbal.
  rewrite Hsh in Hbal. split_and!; [|  |done|done].
  - destruct (sensorConfigured s), (sensorConfigured (state_of r));
      cbn [b2n negb andb] in *; lia.
  - intros Hc. rewrite Hc in Hbal.
    destruct (sensorConfigured (state_of r)); cbn [b2n] in *; [done|lia].
Qed.

(** X10: Inside one connection the sensor is configured at most once, and not
    at all when it is configured already; it is never shut down and
    advertising is never restarted while the connection lasts. *)
Theorem one_configuration_per_connection lvl inputs s :
  buffer_wf s → within_connection inputs = true →
  let r := run lvl inputs s in
  count_ev is_setup (events r)
  = b2n (negb (sensorConfigured s) && sensorConfigured (state_of r))
  ∧ (sensorConfigured s = true → sensorConfigured (state_of r) = true)
  ∧ count_ev is_shutdown (events r) = 0%nat
  ∧ count_ev is_advertise (events r) = 0%nat.
Proof. intros Hwf Hin. by apply connection_sensor_calls. Qed.



Lemma step_counters_typed lvl i s :
  buffer_wf s →
  uint8 (seqNumber s) ∧ uint32 (totalSamplesDuringStream s) →
  uint8 (seqNumber (state_of (step lvl i s)))
  ∧ uint32 (totalSamplesDuringStream (state_of (step lvl i s))).
Proof.
  intros Hwf [Hseq Htot].
  assert (uint8 0 ∧ uint32 0) as Hzero.
  { unfold uint8, uint32. change (2 ^ 32) with 4294967296. lia. }
  step_cases lvl i s Hwf; ssimpl; try done.
  - destruct (pollSensor_frame lvl avail s) as (-> & _). split; [done|].
    destruct (streaming s) eqn:Hon.
    + rewrite pollSensor_streaming by done. by apply pollSensor_loop_total_range.
    + by rewrite pollSensor_idle.
  - split; [apply wrap8_uint8|done].
Qed.

Lemma run_counters_typed lvl inputs :
  ∀ s, buffer_wf s →
    uint8 (seqNumber s) ∧ uint32 (totalSamplesDuringStream s) →
    uint8 (seqNumber (state_of (run lvl inputs s)))
    ∧ uint32 (totalSamplesDuringStream (state_of (run lvl inputs s))).
Proof.
  induction inputs as [|i rest IH]; intros s Hwf Hs; [done|].
  rewrite run_cons_state. apply IH; [by apply step_wf|by apply step_counters_typed].
Qed.

Lemma boot_counters_typed :
  uint8 (seqNumber boot) ∧ uint32 (totalSamplesDuringStream boot).
Proof. unfold uint8, uint32. change (2 ^ 32) with 4294967296. cbn. lia. Qed.

(** X12: The 8-bit sequence counter and the 32-bit captured-sample counter stay
    inside their types over any run from power-up: every increment wraps. *)
Theorem counters_stay_in_range lvl inputs :
  let s := state_of (run lvl inputs boot) in
  uint8 (seqNumber s) ∧ uint32 (totalSamplesDuringStream s).
Proof. apply run_counters_typed; [apply boot_wf|apply boot_counters_typed]. Qed.

(** ** Disconnect and the connection loop *)

(** X13: [handleDisconnect] prints the summary of the state it finds, then
    leaves the pipeline as a fresh connection expects it: Idle, counters,
    indices and count at zero, buffer empty, sensor off.  The sensor is
    shut down exactly when it was configured, and advertising is restarted
    exactly once.  A second disconnect in a row prints no summary and does
    not shut the sensor down again. *)
Theorem handleDisconnect_cleans_up lvl now s :
  buffer_wf s →
  let r := handleDisconnect lvl now s in
  let s' := state_of r in
  (streaming s' = false ∧ seqNumber s' = 0 ∧ totalSamplesDuringStream s' = 0
   ∧ writeIndex s' = 0 ∧ readIndex s' = 0 ∧ bufferCount s' = 0
   ∧ contents s' = [] ∧ sensorConfigured s' = false ∧ buffer_wf s')
  ∧ summaries (events r) = summary_of now s
  ∧ count_ev is_shutdown (events r) = b2n (sensorConfigured s)
  ∧ count_ev is_advertise (events r) = 1%nat
  ∧ (∀ now', summaries (events (handleDisconnect lvl now' s')) = []
             ∧ count_ev is_shutdown (events (handleDisconnect lvl now' s')) = 0%nat).
Proof.
  intros Hwf r s'. unfold s', r. rewrite !handleDisconnect_eq.
  rewrite !state_of_triple, !events_triple.
  split; [split_and!; try done; destruct Hwf; by apply reset_wf|].
  split.
  { rewrite !summaries_app, !summaries_debug_line, summaries_summary_of.
    cbn [app]. destruct (sensorConfigured s); cbn [summaries];
      rewrite ?summaries_debug_line; by rewrite app_nil_r. }
  split; [count_events|].
  split; [count_events|].
  intros now'. rewrite handleDisconnect_eq, events_triple.
  unfold summary_of. ssimpl. change (0 =? 0) with true. cbv beta iota.
  split; count_events.
Qed.

(** X14: However a connection goes, [loop] returns with the pipeline ready for
    the next one (Idle, counters and buffer reset, sensor off), having shut
    the sensor down as often as it configured it and restarted advertising
    exactly once. *)
Theorem loop_leaves_device_ready lvl history passes now :
  let s0 := state_of (run lvl history boot) in
  let r := loop lvl passes now s0 in
  sensorConfigured s0 = false →
  (streaming (state_of r) = false ∧ seqNumber (state_of r) = 0
   ∧ totalSamplesDuringStream (state_of r) = 0 ∧ bufferCount (state_of r) = 0
   ∧ contents (state_of r) = [] ∧ sensorConfigured (state_of r) = false
   ∧ buffer_wf (state_of r))
  ∧ count_ev is_setup (events r) = count_ev is_shutdown (events r)
  ∧ (count_ev is_setup (events r) ≤ 1)%nat
  ∧ count_ev is_advertise (events r) = 1%nat.
Proof.
  intros s0 r Hoff.
  assert (buffer_wf s0) as Hwf0 by apply run_wf, boot_wf.
  destruct (loop_run lvl passes now s0) as [Hst Hev]. fold r in Hst, Hev.
  rewrite Hst, Hev. unfold loop_inputs.
  rewrite run_cons_state, run_cons_events, run_app_state, run_app_events.
  set (s1 := state_of (step lvl InConnect s0)).
  assert (buffer_wf s1) as Hwf1 by (by apply step_wf).
  assert (sensorConfigured s1 = false) as Hoff1.
  { unfold s1. cbn [step]. by rewrite resetStreamingState_eq. }
  set (inner := passes ≫= pass_inputs).
  assert (within_connection inner = true) as Hin.
  { unfold inner. clear. induction passes as [|p rest IH]; [done|].
    cbn [mbind list_bind]. unfold within_connection in *.
    rewrite forallb_app, IH. done. }
  destruct (connection_sensor_calls lvl inner s1 Hwf1 Hin)
    as (Hset & _ & Hsh & Hadv).
  set (s2 := state_of (run lvl inner s1)) in *.
  assert (buffer_wf s2) as Hwf2 by (by apply run_wf).
  cbn [run step]. msimpl. rewrite handleDisconnect_eq.
  cbn [fst snd]. rewrite app_nil_r.
  assert (count_ev is_setup (events (resetStreamingState lvl s0)) = 0%nat
          ∧ count_ev is_shutdown (events (resetStreamingState lvl s0)) = 0%nat
          ∧ count_ev is_advertise (events (resetStreamingState lvl s0)) = 0%nat)
    as (R1 & R2 & R3).
  { rewrite resetStreamingState_eq, events_triple. split_and!; by count_events. }
  unfold events in *. cbn [snd] in *.
  rewrite !count_ev_app, R1, R2, R3, Hset, Hsh, Hadv, Hoff1. cbn [negb andb].
  split; [split_and!; try done; destruct Hwf2; by apply reset_wf|].
  split_and!; destruct (sensorConfigured s2); count_events; cbn; lia.
Qed.

(** ** From the sensor to the receiver *)

Lemma contents_command_frame s s' :
  command_frame s s' → contents s' = contents s.
Proof. intros (_ & ? & ? & _ & ? & ? & _). by apply contents_same_buffer. Qed.

Lemma Forall_offered_cons i rest :
  Forall uint32_pair (offered (i :: rest)) →
  Forall uint32_pair (offered rest)
  ∧ ∀ avail, i = InPoll avail → Forall uint32_pair avail.
Proof.
  destruct i; cbn [offered]; intros H; try (split; [done|by intros]).
  apply Forall_app in H as [H1 H2]. split; [done|]. by intros ? [= <-].
Qed.

(** X15: Within a connection, what the receiver decodes from all frames sent so
    far, followed by what is still buffered, is exactly what was buffered
    at the start followed by the samples accepted since, in production
    order: no sample is duplicated, reordered or altered between the
    sensor and the receiver. *)
Theorem stream_integrity lvl inputs :
  ∀ s, buffer_wf s →
    within_connection inputs = true →
    Forall uint32_pair (contents s) →
    Forall uint32_pair (offered inputs) →
    received lvl inputs s ++ contents (state_of (run lvl inputs s))
    = contents s ++ accepted lvl inputs s.
Proof.
  unfold received.
  induction inputs as [|i rest IH]; intros s Hwf Hin Hs Hoff.
  - cbn. by rewrite app_nil_r.
  - cbn [within_connection forallb] in Hin. apply andb_true_iff in Hin as [Hi Hin].
    apply Forall_offered_cons in Hoff as [Hoff Havail].
    rewrite run_cons_state. cbn [frame_groups accepted].
    pose proof (step_wf lvl i s Hwf) as Hwf'.
    specialize (IH (state_of (step lvl i s)) Hwf' Hin).
    destruct i as [|written now|avail| | |now]; try done; cbn [step app] in *.
    + rewrite bind_unit_state in *.
      pose proof (contents_command_frame _ _ (handleCommands_frame lvl written now s)) as Hc.
      rewrite Hc in IH. by rewrite IH.
    + rewrite bind_unit_state in *. destruct (streaming s) eqn:Hon.
      * destruct (pollSensor_streaming_effect lvl avail s Hwf Hon) as (Hc & _).
        rewrite Hc in IH. rewrite IH, ?app_assoc; [done| |done].
        apply Forall_app. split; [done|]. apply Forall_take. by apply Havail.
      * rewrite pollSensor_idle in * by done. rewrite state_of_triple in *.
        by rewrite IH.
    + rewrite bind_unit_state in *.
      destruct (Z.lt_ge_cases (bufferCount s) CHUNK_SIZE) as [Hlt|Hge].
      * rewrite transmitChunk_fail in * by done.
        rewrite result_triple, state_of_triple in *. by rewrite IH.
      * pose proof (transmitChunk_decodes lvl s Hwf Hge Hs) as Hd.
        pose proof (transmitChunk_contents lvl s Hwf Hge) as Hc.
        assert (result (transmitChunk lvl s) = true) as ->
          by (by rewrite transmitChunk_ok).
        cbn [mbind list_bind]. rewrite Hd, Hc in *.
        rewrite <-app_assoc, IH; [|by apply Forall_drop|done].
        by rewrite app_assoc, take_drop.
    + by rewrite IH.
Qed.

(** ** Nominal load *)

Lemma frame_groups_app lvl l1 l2 :
  ∀ s, frame_groups lvl (l1 ++ l2) s
       = frame_groups lvl l1 s ++ frame_groups lvl l2 (state_of (run lvl l1 s)).
Proof.
  induction l1 as [|i l1 IH]; intros s; [done|].
  cbn [app frame_groups]. rewrite run_cons_state, IH.
  destruct i; try done. by destruct (result (transmitChunk lvl s)).
Qed.

Lemma run_nil_state lvl s : state_of (run lvl [] s) = s.
Proof. reflexivity. Qed.

Lemma step_blepoll_state lvl s : state_of (step lvl InBlePoll s) = s.
Proof. reflexivity. Qed.

Lemma pass_nominal lvl p s :
  buffer_wf s → bufferCount s < CHUNK_SIZE →
  Z.of_nat (length (pass_avail p)) ≤ CHUNK_SIZE →
  let s' := state_of (run lvl (pass_inputs p) s) in
  let g := Z.of_nat (length (frame_groups lvl (pass_inputs p) s)) in
  buffer_wf s' ∧ bufferCount s' < CHUNK_SIZE
  ∧ wrap32 (totalSamplesDuringStream s')
    = wrap32 (totalSamplesDuringStream s + CHUNK_SIZE * g
              + bufferCount s' - bufferCount s).
Proof.
  intros Hwf Hlt Hlen s' g.
  split; [by apply run_wf|]. unfold s', g, pass_inputs. clear s' g.
  destruct p as [written now avail]. cbn [pass_written pass_now pass_avail] in *.
  rewrite !run_cons_state, run_nil_state, step_blepoll_state.
  cbn [frame_groups step]. rewrite !bind_unit_state.
  set (s1 := state_of (handleCommands lvl written now s)).
  destruct (handleCommands_frame lvl written now s)
    as (_ & _ & _ & _ & _ & Hc1 & _ & _ & Ht1). fold s1 in Hc1, Ht1.
  assert (buffer_wf s1) as Hwf1 by (by apply handleCommands_wf).
  set (s2 := state_of (pollSensor lvl avail s1)).
  assert (buffer_wf s2) as Hwf2 by (by apply pollSensor_wf).
  assert (bufferCount s2 < 2 * CHUNK_SIZE
          ∧ wrap32 (totalSamplesDuringStream s2)
            = wrap32 (totalSamplesDuringStream s + bufferCount s2 - bufferCount s))
    as [Hc2 Ht2].
  { unfold s2. destruct (streaming s1) eqn:Hon.
    - destruct (pollSensor_streaming_effect lvl avail s1 Hwf1 Hon) as (_ & -> & -> & _).
      rewrite Hc1, Ht1. rewrite CHUNK_SIZE_val, BUFFER_SIZE_val in *.
      split; [lia|]. f_equal. lia.
    - rewrite pollSensor_idle by done. rewrite state_of_triple, Hc1, Ht1.
      split; [rewrite CHUNK_SIZE_val in *; lia|]. f_equal. lia. }
  destruct (Z.lt_ge_cases (bufferCount s2) CHUNK_SIZE) as [Hlt2|Hge2].
  - rewrite transmitChunk_fail by done.
    rewrite result_triple, state_of_triple. cbn [length].
    split; [done|]. rewrite Ht2. f_equal. lia.
  - rewrite transmitChunk_ok by done. cbn zeta.
    rewrite result_triple, state_of_triple. cbn [length]. ssimpl.
    rewrite CHUNK_SIZE_val in *. split; [lia|]. rewrite Ht2. f_equal. lia.
Qed.

Lemma passes_nominal lvl passes :
  ∀ s, buffer_wf s → bufferCount s < CHUNK_SIZE →
    nominal_load passes = true →
    let inputs := passes ≫= pass_inputs in
    let s' := state_of (run lvl inputs s) in
    let g := Z.of_nat (length (frame_groups lvl inputs s)) in
    buffer_wf s' ∧ bufferCount s' < CHUNK_SIZE
    ∧ wrap32 (totalSamplesDuringStream s')
      = wrap32 (totalSamplesDuringStream s + CHUNK_SIZE * g
                + bufferCount s' - bufferCount s).
Proof.
  induction passes as [|p rest IH]; intros s Hwf Hlt Hnom.
  - cbn. split_and!; [done|done|]. f_equal. lia.
  - cbn [nominal_load forallb] in Hnom. apply andb_true_iff in Hnom as [Hp Hnom].
    apply Z.leb_le in Hp. cbn zeta. cbn [mbind list_bind].
    rewrite run_app_state, frame_groups_app, length_app.
    destruct (pass_nominal lvl p s Hwf Hlt Hp) as (Hwf1 & Hlt1 & Ht1).
    destruct (IH _ Hwf1 Hlt1 Hnom) as (Hwf2 & Hlt2 & Ht2).
    split_and!; [done|done|].
    rewrite Ht2. clear Ht2 IH.
    unfold wrap32 in *. change (2 ^ 32) with 4294967296 in *.
    rewrite CHUNK_SIZE_val in *. lia.
Qed.

(** X16: When no pass of a connection is offered more than [CHUNK_SIZE]
    samples, the buffer never holds a full chunk at the end of a pass, so
    it cannot overflow, and every captured sample is either sent or still
    buffered: the captured-sample counter is [CHUNK_SIZE] times the number
    of chunks sent plus the buffered count (modulo 2^32), the buffered
    count is the counter modulo [CHUNK_SIZE], and the sequence counter is
    the number of whole chunks captured, modulo 256. *)
Theorem nominal_load_conserves_samples lvl history passes :
  nominal_load passes = true →
  let s0 := state_of (run lvl (history ++ [InConnect]) boot) in
  let s := state_of (loop_while lvl passes s0) in
  let sent := Z.of_nat (length (frame_groups lvl (passes ≫= pass_inputs) s0)) in
  bufferCount s < CHUNK_SIZE
  ∧ totalSamplesDuringStream s = wrap32 (CHUNK_SIZE * sent + bufferCount s)
  ∧ bufferCount s = totalSamplesDuringStream s mod CHUNK_SIZE
  ∧ seqNumber s = (totalSamplesDuringStream s ÷ CHUNK_SIZE) mod 256.
Proof.
  intros Hnom s0 s sent. unfold s. rewrite loop_while_state. clear s.
  destruct (connect_state lvl history) as (Hwf & Hseq & _ & _ & _ & Hc & Ht).
  fold s0 in Hwf, Hseq, Hc, Ht.
  destruct (passes_nominal lvl passes s0 Hwf) as (Hwf' & Hlt & Htot);
    [rewrite Hc, CHUNK_SIZE_val; lia|done|].
  cbn zeta in Hwf', Hlt, Htot. fold sent in Htot.
  assert (within_connection (passes ≫= pass_inputs) = true) as Hin.
  { clear. induction passes as [|p rest IH]; [done|].
    cbn [mbind list_bind]. unfold within_connection in *.
    by rewrite forallb_app, IH. }
  destruct (frame_groups_seq lvl (passes ≫= pass_inputs) s0 Hwf) as [_ Hs];
    [lia|done|]. fold sent in Hs.
  destruct (run_counters_typed lvl (passes ≫= pass_inputs) s0 Hwf) as [_ Hr].
  { rewrite Hseq, Ht. unfold uint8, uint32. change (2 ^ 32) with 4294967296. lia. }
  set (s := state_of (run lvl (passes ≫= pass_inputs) s0)) in *.
  pose proof (wf_count s Hwf') as Hcount.
  rewrite (wrap32_small _ Hr) in Htot. rewrite Hc, Ht in Htot.
  rewrite Hseq in Hs. unfold uint32 in Hr.
  replace (0 + CHUNK_SIZE * sent + bufferCount s - 0)
    with (CHUNK_SIZE * sent + bufferCount s) in Htot by lia.
  split_and!; [done|done|..].
  - rewrite Htot. unfold wrap32. rewrite CHUNK_SIZE_val in *.
    change (2 ^ 32) with 4294967296. lia.
  - rewrite Hs, Htot. unfold wrap32. rewrite CHUNK_SIZE_val in *.
    change (2 ^ 32) with 4294967296. lia.
Qed.

(** ** Start-up *)

(** X17: [setup] opens the serial port and waits for it: as long as
    [Serial] has not read true it makes no sensor or BLE call and does not
    return.  Once the port is up, it lets [loop] run exactly when the
    sensor is found and the BLE stack starts, and halts otherwise; when
    the sensor is missing it halts before touching the BLE stack, and
    advertising starts only on full success, once. *)
Theorem setup_stops_on_failure lvl reads found began :
  let r := setup lvl reads found began in
  (r.1 = SetupDone ↔ serial_ready reads && found && began = true)
  ∧ (serial_ready reads = false → r = (SetupWaiting, [BvSerialBegin 115200]))
  ∧ (serial_ready reads = true →
     r.1 = if found && began then SetupDone else SetupHalted)
  ∧ count_bv is_bv_sensor r.2 = b2n (serial_ready reads)
  ∧ count_bv is_bv_advertise r.2 = b2n (serial_ready reads && found && began)
  ∧ (found = false → count_bv is_bv_ble r.2 = 0%nat).
Proof.
  unfold setup, initSensor, initBLE, boot_debug.
  destruct (serial_ready reads), found, began, (DEBUG_INFO <=? lvl);
    cbn; repeat split; (done || by intros).
Qed.

Lemma serial_ready_spec reads : serial_ready reads = true ↔ true ∈ reads.
Proof.
  induction reads as [|r reads IH]; cbn [serial_ready].
  - split; [done|]. by intros ?%elem_of_nil.
  - destruct r.
    + split; [intros _; by left|done].
    + rewrite IH. split; [by right|]. intros [?|?]%elem_of_cons; done.
Qed.

(** ** The further properties on concrete sessions *)

Lemma Forall_uint32_pairb (l : list (Z * Z)) :
  forallb uint32_pairb l = true → Forall uint32_pair l.
Proof.
  induction l as [|x l IH]; [constructor|]. cbn [forallb].
  rewrite andb_true_iff. intros [Hx Hl]. constructor; [|by apply IH].
  unfold uint32_pairb in Hx. rewrite !andb_true_iff in Hx.
  rewrite !Z.leb_le, !Z.ltb_lt in Hx. unfold uint32_pair, uint32. lia.
Qed.

Lemma pollSensor_counts_every_sample_witness :
  buffer_wf started_state
  ∧ uint32 (totalSamplesDuringStream started_state)
  ∧ result (pollSensor DEBUG_LEVEL (ramp 5) started_state) = 5
  ∧ totalSamplesDuringStream (state_of (pollSensor DEBUG_LEVEL (ramp 5) started_state))
    = 5.
Proof.
  assert (buffer_wf started_state) as Hwf
    by (apply buffer_wfb_sound; vm_compute; reflexivity).
  assert (uint32 (totalSamplesDuringStream started_state)) as Ht
    by (vm_compute; split; [discriminate|reflexivity]).
  split; [exact Hwf|]. split; [exact Ht|].
  pose proof (pollSensor_counts_every_sample DEBUG_LEVEL (ramp 5) started_state Hwf Ht) as H.
  cbv zeta in H.
  replace (streaming started_state) with true in H by (vm_compute; reflexivity).
  destruct H as [H1 H2]. split.
  - rewrite H1. vm_compute. reflexivity.
  - rewrite H2. vm_compute. reflexivity.
Defined.

Lemma pollSensor_keeps_oldest_witness :
  buffer_wf nearly_full_state
  ∧ streaming nearly_full_state = true
  ∧ contents (state_of (pollSensor DEBUG_LEVEL (ramp 20) nearly_full_state))
    = contents nearly_full_state ++ ramp 10
  ∧ bufferCount (state_of (pollSensor DEBUG_LEVEL (ramp 20) nearly_full_state))
    = BUFFER_SIZE.
Proof.
  assert (buffer_wf nearly_full_state) as Hwf
    by (apply buffer_wfb_sound; vm_compute; reflexivity).
  assert (streaming nearly_full_state = true) as Hon by (vm_compute; reflexivity).
  split; [exact Hwf|]. split; [exact Hon|].
  destruct (pollSensor_keeps_oldest DEBUG_LEVEL (ramp 20) nearly_full_state Hwf Hon)
    as (H1 & H2 & _).
  split.
  - rewrite H1. f_equal.
  - rewrite H2. vm_compute. reflexivity.
Defined.

Lemma pollSensor_overflow_report_witness :
  buffer_wf nearly_full_state
  ∧ streaming nearly_full_state = true
  ∧ events (pollSensor DEBUG_INFO (ramp 20) nearly_full_state)
    = replicate 10 (EvDebug "BUFFER OVERFLOW").
Proof.
  assert (buffer_wf nearly_full_state) as Hwf
    by (apply buffer_wfb_sound; vm_compute; reflexivity).
  assert (streaming nearly_full_state = true) as Hon by (vm_compute; reflexivity).
  split; [exact Hwf|]. split; [exact Hon|].
  rewrite (pollSensor_overflow_report DEBUG_INFO (ramp 20) nearly_full_state Hwf Hon).
  vm_compute. reflexivity.
Defined.

Lemma extractChunk_takes_oldest_witness :
  buffer_wf chunk_ready_state
  ∧ CHUNK_SIZE ≤ bufferCount chunk_ready_state
  ∧ chunk_pairs (state_of (extractChunk chunk_ready_state)) = ramp 32
  ∧ bufferCount (state_of (extractChunk chunk_ready_state)) = 8.
Proof.
  assert (buffer_wf chunk_ready_state) as Hwf
    by (apply buffer_wfb_sound; vm_compute; reflexivity).
  assert (CHUNK_SIZE ≤ bufferCount chunk_ready_state) as Hge
    by (vm_compute; discriminate).
  split; [exact Hwf|]. split; [exact Hge|].
  destruct (extractChunk_takes_oldest chunk_ready_state Hwf Hge)
    as (_ & _ & H1 & _ & _ & H2 & _).
  split.
  - rewrite H1. vm_compute. reflexivity.
  - rewrite H2. vm_compute. reflexivity.
Defined.

Lemma packet_fully_overwritten_witness :
  length (replicate 129 0) = Z.to_nat PACKET_SIZE
  ∧ length (replicate 129 255) = Z.to_nat PACKET_SIZE
  ∧ build_packet_from (replicate 129 0) 7 ((ramp 32).*1) ((ramp 32).*2) 1
    = build_packet_from (replicate 129 255) 7 ((ramp 32).*1) ((ramp 32).*2) 1.
Proof.
  split; [vm_compute; reflexivity|]. split; [vm_compute; reflexivity|].
  apply packet_fully_overwritten; vm_compute; reflexivity.
Defined.

Lemma transmitChunk_paces_frames_witness :
  buffer_wf chunk_ready_state
  ∧ CHUNK_SIZE ≤ bufferCount chunk_ready_state
  ∧ ∃ p0 p1,
      events (transmitChunk DEBUG_LEVEL chunk_ready_state)
      = [EvNotify p0; EvDelay PACKET_PACING_MS; EvNotify p1; EvDelay PACKET_PACING_MS]
      ∧ length p0 = Z.to_nat PACKET_SIZE ∧ length p1 = Z.to_nat PACKET_SIZE.
Proof.
  assert (buffer_wf chunk_ready_state) as Hwf
    by (apply buffer_wfb_sound; vm_compute; reflexivity).
  assert (CHUNK_SIZE ≤ bufferCount chunk_ready_state) as Hge
    by (vm_compute; discriminate).
  split; [exact Hwf|]. split; [exact Hge|].
  destruct (transmitChunk_paces_frames DEBUG_LEVEL chunk_ready_state Hwf Hge)
    as (p0 & p1 & He & L0 & L1 & _).
  exists p0, p1. split; [|by split]. rewrite He. apply app_nil_r.
Defined.

Lemma transmitChunk_delivers_oldest_witness :
  buffer_wf chunk_ready_state
  ∧ CHUNK_SIZE ≤ bufferCount chunk_ready_state
  ∧ Forall uint32_pair (contents chunk_ready_state)
  ∧ decode_frames (notified (events (transmitChunk DEBUG_LEVEL chunk_ready_state)))
    = ramp 32.
Proof.
  assert (buffer_wf chunk_ready_state) as Hwf
    by (apply buffer_wfb_sound; vm_compute; reflexivity).
  assert (CHUNK_SIZE ≤ bufferCount chunk_ready_state) as Hge
    by (vm_compute; discriminate).
  assert (Forall uint32_pair (contents chunk_ready_state)) as Hxs
    by (apply Forall_uint32_pairb; vm_compute; reflexivity).
  split; [exact Hwf|]. split; [exact Hge|]. split; [exact Hxs|].
  destruct (transmitChunk_delivers_oldest DEBUG_LEVEL chunk_ready_state Hwf Hge Hxs)
    as [H _].
  rewrite H. vm_compute. reflexivity.
Defined.

Lemma one_configuration_per_connection_witness :
  buffer_wf connected_state
  ∧ within_connection two_sessions = true
  ∧ count_ev is_setup (events (run DEBUG_LEVEL two_sessions connected_state)) = 1%nat
  ∧ count_ev is_shutdown (events (run DEBUG_LEVEL two_sessions connected_state)) = 0%nat.
Proof.
  assert (buffer_wf connected_state) as Hwf
    by (apply buffer_wfb_sound; vm_compute; reflexivity).
  assert (within_connection two_sessions = true) as Hin by (vm_compute; reflexivity).
  split; [exact Hwf|]. split; [exact Hin|].
  destruct (one_configuration_per_connection DEBUG_LEVEL two_sessions connected_state
              Hwf Hin) as (H1 & _ & H2 & _).
  split; [|exact H2]. rewrite H1. vm_compute. reflexivity.
Defined.


Lemma handleDisconnect_cleans_up_witness :
  buffer_wf chunk_ready_state
  ∧ sensorConfigured (state_of (handleDisconnect DEBUG_LEVEL 5000 chunk_ready_state))
    = false
  ∧ summaries (events (handleDisconnect DEBUG_LEVEL 5000 chunk_ready_state))
    = [EvSummary 5000 40 0]
  ∧ count_ev is_shutdown (events (handleDisconnect DEBUG_LEVEL 5000 chunk_ready_state))
    = 1%nat.
Proof.
  assert (buffer_wf chunk_ready_state) as Hwf
    by (apply buffer_wfb_sound; vm_compute; reflexivity).
  split; [exact Hwf|].
  destruct (handleDisconnect_cleans_up DEBUG_LEVEL 5000 chunk_ready_state Hwf)
    as ((_ & _ & _ & _ & _ & _ & _ & H1 & _) & H2 & H3 & _).
  split; [exact H1|]. split.
  - rewrite H2. vm_compute. reflexivity.
  - rewrite H3. vm_compute. reflexivity.
Defined.

Lemma loop_leaves_device_ready_witness :
  sensorConfigured (state_of (run DEBUG_LEVEL [] boot)) = false
  ∧ sensorConfigured (state_of (loop DEBUG_LEVEL steady_passes 9000
                                  (state_of (run DEBUG_LEVEL [] boot))))
    = false
  ∧ count_ev is_advertise
      (events (loop DEBUG_LEVEL steady_passes 9000 (state_of (run DEBUG_LEVEL [] boot))))
    = 1%nat.
Proof.
  split; [vm_compute; reflexivity|].
  destruct (loop_leaves_device_ready DEBUG_LEVEL [] steady_passes 9000)
    as ((_ & _ & _ & _ & _ & H1 & _) & _ & _ & H2); [vm_compute; reflexivity|].
  split; [exact H1|exact H2].
Defined.

Lemma stream_integrity_witness :
  buffer_wf connected_state
  ∧ within_connection busy_connection = true
  ∧ Forall uint32_pair (contents connected_state)
  ∧ Forall uint32_pair (offered busy_connection)
  ∧ received DEBUG_LEVEL busy_connection connected_state
      ++ contents (state_of (run DEBUG_LEVEL busy_connection connected_state))
    = ramp 40 ++ ramp 30.
Proof.
  assert (buffer_wf connected_state) as Hwf
    by (apply buffer_wfb_sound; vm_compute; reflexivity).
  assert (within_connection busy_connection = true) as Hin by (vm_compute; reflexivity).
  assert (Forall uint32_pair (contents connected_state)) as Hs
    by (apply Forall_uint32_pairb; vm_compute; reflexivity).
  assert (Forall uint32_pair (offered busy_connection)) as Ho
    by (apply Forall_uint32_pairb; vm_compute; reflexivity).
  split; [exact Hwf|]. split; [exact Hin|]. split; [exact Hs|]. split; [exact Ho|].
  rewrite (stream_integrity DEBUG_LEVEL busy_connection connected_state Hwf Hin Hs Ho).
  vm_compute. reflexivity.
Defined.

Lemma nominal_load_conserves_samples_witness :
  nominal_load steady_passes = true
  ∧ bufferCount (state_of (loop_while DEBUG_LEVEL steady_passes
                             (state_of (run DEBUG_LEVEL ([] ++ [InConnect]) boot))))
    = 600 mod CHUNK_SIZE
  ∧ seqNumber (state_of (loop_while DEBUG_LEVEL steady_passes
                           (state_of (run DEBUG_LEVEL ([] ++ [InConnect]) boot))))
    = 18.
Proof.
  split; [vm_compute; reflexivity|].
  pose proof (nominal_load_conserves_samples DEBUG_LEVEL [] steady_passes) as H.
  cbv zeta in H. destruct H as (_ & _ & H1 & H2); [vm_compute; reflexivity|].
  split.
  - rewrite H1. vm_compute. reflexivity.
  - rewrite H2. vm_compute. reflexivity.
Defined.

Lemma setup_stops_on_failure_witness :
  serial_ready [false; false; true] = true
  ∧ (setup DEBUG_LEVEL [false; false; true] false true).1 = SetupHalted
  ∧ count_bv is_bv_ble (setup DEBUG_LEVEL [false; false; true] false true).2 = 0%nat
  ∧ setup DEBUG_LEVEL [false; false] true true = (SetupWaiting, [BvSerialBegin 115200]).
Proof.
  split; [reflexivity|].
  destruct (setup_stops_on_failure DEBUG_LEVEL [false; false; true] false true)
    as (_ & _ & H1 & _ & _ & H2).
  destruct (setup_stops_on_failure DEBUG_LEVEL [false; false] true true)
    as (_ & H3 & _).
  split; [apply H1; reflexivity|]. split; [apply H2; reflexivity|].
  apply H3. reflexivity.
Defined.
